(** * AIND-Recognizer: model selectors and recognizer

    A shallow embedding of [my_model_selectors.py] and [my_recognizer.py].

    Python floats are IEEE-754 binary64 values; they are modelled by the
    Standard Library's [spec_float] (infinities, signed zeros and NaN
    included) with precision 53 and maximal exponent 1024.  Calls into
    hmmlearn ([GaussianHMM(...).fit], [model.score]) are external
    primitives: they are parameters of the development, and a call that
    raises is the [Raised] outcome. *)

From Stdlib Require Import ZArith String List Bool Lia.
From Stdlib Require Import Floats.SpecFloat.
Import ListNotations.

Local Open Scope Z_scope.

(** ** Python floats *)

Module PyFloat.

Definition prec : Z := 53.
Definition emax : Z := 1024.

Definition float : Type := spec_float.

(** [float("inf")], [float("-inf")] and NaN. *)
Definition inf : float := S754_infinity false.
Definition ninf : float := S754_infinity true.
Definition nan : float := S754_nan.

(** Conversion of a Python int, as done when an int meets a float in
    an arithmetic operation (round to nearest, ties to even).  The ints
    converted here are small counts and parameter counts; an int beyond
    the binary64 range, which Python refuses to convert, would need a
    state count of some 150 digits. *)
Definition of_int (z : Z) : float := binary_normalize prec emax z 0 false.

Definition add : float -> float -> float := SFadd prec emax.
Definition sub : float -> float -> float := SFsub prec emax.
Definition mul : float -> float -> float := SFmul prec emax.
Definition div : float -> float -> float := SFdiv prec emax.

(** [x < y], [x > y] and [x == y]. *)
Definition ltb (x y : float) : bool := SFltb x y.
Definition gtb (x y : float) : bool := SFltb y x.
Definition eqb (x y : float) : bool := SFeqb x y.

Definition is_nan (x : float) : bool :=
  match x with S754_nan => true | _ => false end.

Definition is_finite (x : float) : bool :=
  match x with S754_zero _ | S754_finite _ _ _ => true | _ => false end.

(** Python's builtin [max] over a non-empty sequence: the first item,
    replaced by a later item only when that item is [>] the current
    maximum.  On an empty sequence it raises ([None]). *)
Definition pymax (l : list float) : option float :=
  match l with
  | [] => None
  | x :: l' => Some (fold_left (fun m v => if gtb v m then v else m) l' x)
  end.

End PyFloat.

Import PyFloat.

(** ** Outcome of a call that may raise *)

Inductive outcome (A : Type) : Type :=
| Returned (a : A)
| Raised.
Arguments Returned {A} a.
Arguments Raised {A}.

(** ** Python dicts with string keys, in insertion order *)

Definition dict (V : Type) : Type := list (string * V).

Fixpoint dict_get {V : Type} (d : dict V) (k : string) : option V :=
  match d with
  | [] => None
  | (k', v) :: d' => if String.eqb k' k then Some v else dict_get d' k
  end.

(** [d[k] = v]: overwrite in place when the key exists, append otherwise. *)
Fixpoint dict_set {V : Type} (d : dict V) (k : string) (v : V) : dict V :=
  match d with
  | [] => [(k, v)]
  | (k', v') :: d' =>
      if String.eqb k' k then (k', v) :: d' else (k', v') :: dict_set d' k v
  end.

Definition dict_keys {V : Type} (d : dict V) : list string := map fst d.
Definition dict_values {V : Type} (d : dict V) : list V := map snd d.

(** ** External primitives

    hmmlearn's [GaussianHMM], numpy's [log], scikit-learn's [KFold] and
    [asl_utils.combine_sequences] are collaborators of the two modules.
    They are deterministic (every fit receives the selector's fixed
    [random_state]) and are kept abstract. *)

Class HMMLib : Type := {
  (** one feature frame: a row of a feature matrix [X] *)
  frame : Type;
  (** a fitted [GaussianHMM] *)
  GaussianHMM : Type;
  (** [GaussianHMM(n_components=k, covariance_type="diag", n_iter=1000,
      random_state=r, verbose=False).fit(X, lengths)] *)
  GaussianHMM_fit : Z -> Z -> list frame * list Z -> outcome GaussianHMM;
  (** [model.score(X, lengths)] *)
  GaussianHMM_score : GaussianHMM -> list frame * list Z -> outcome float;
  (** [model.n_features] *)
  n_features : GaussianHMM -> Z;
  (** [np.log] of an integer count *)
  np_log : Z -> float;
  (** [KFold(n_splits).split(...)] on [n_samples] items: the
      (train indices, test indices) pairs *)
  KFold_split : Z -> nat -> list (list nat * list nat);
  (** [combine_sequences(split_index_list, sequences)] *)
  combine_sequences : list nat -> list (list frame) -> list frame * list Z
}.

(** [range(lo, hi)] *)
Definition range (lo hi : Z) : list Z :=
  map (fun i => lo + Z.of_nat i) (seq 0 (Z.to_nat (hi - lo))).

(** [int / int] and [float / int] with a Python float numerator raise
    [ZeroDivisionError] on a zero divisor.  (A numpy float64 numerator
    would give an infinity or NaN instead.  In a selector built by
    [__init__] a zero divisor only meets the Python numerators [0.0],
    when the vocabulary is the target word alone, and [0], when there is
    no fold.) *)
Definition truediv (x : float) (n : Z) : outcome float :=
  if Z.eqb n 0 then Raised else Returned (div x (of_int n)).

Section Program.

Context {lib : HMMLib}.

Definition Xlengths : Type := list frame * list Z.
Definition sequence : Type := list frame.

(** [X.shape[0]] *)
Definition shape0 (X : list frame) : Z := Z.of_nat (length X).

(** *** my_recognizer.py *)

(** The per-item variables of [recognize]. *)
Record item_state : Type := {
  best_score : float;
  best_guess : option string;
  word_prob : dict float
}.

Definition item_init : item_state :=
  {| best_score := ninf; best_guess := None; word_prob := [] |}.

(** The [try: score = model.score(...) except: score = float("-inf")]. *)
Definition try_score (model : GaussianHMM) (x : Xlengths) : float :=
  match GaussianHMM_score model x with
  | Returned s => s
  | Raised => ninf
  end.

(** Body of [for word, model in models.items()]. *)
Definition recognize_word (x : Xlengths) (st : item_state)
    (wm : string * GaussianHMM) : item_state :=
  let (word, model) := wm in
  let score := try_score model x in
  if gtb score (best_score st)
  then {| best_score := score; best_guess := Some word;
          word_prob := dict_set (word_prob st) word score |}
  else {| best_score := best_score st; best_guess := best_guess st;
          word_prob := dict_set (word_prob st) word score |}.

Definition recognize_item (models : dict GaussianHMM) (x : Xlengths) : item_state :=
  fold_left (recognize_word x) models item_init.

(** [SinglesData]: the test items, indexed from 0. *)
Definition SinglesData : Type := list Xlengths.

Definition get_item_Xlengths (test_set : SinglesData) (i : nat) : option Xlengths :=
  nth_error test_set i.

(** Body of [for word_index in range(0, len(test_set.get_all_Xlengths()))]. *)
Fixpoint recognize_loop (models : dict GaussianHMM) (test_set : SinglesData)
    (indices : list nat) (probabilities : list (dict float))
    (guesses : list (option string))
    : outcome (list (dict float) * list (option string)) :=
  match indices with
  | [] => Returned (probabilities, guesses)
  | word_index :: rest =>
      match get_item_Xlengths test_set word_index with
      | None => Raised
      | Some x =>
          let st := recognize_item models x in
          recognize_loop models test_set rest
            (probabilities ++ [word_prob st]) (guesses ++ [best_guess st])
      end
  end.

Definition recognize (models : dict GaussianHMM) (test_set : SinglesData)
    : outcome (list (dict float) * list (option string)) :=
  recognize_loop models test_set (seq 0 (length test_set)) [] [].

(** *** my_model_selectors.py *)

Record ModelSelector : Type := {
  words : dict (list sequence);
  hwords : dict Xlengths;
  sequences : list sequence;
  X : list frame;
  lengths : list Z;
  this_word : string;
  n_constant : Z;
  min_n_components : Z;
  max_n_components : Z;
  random_state : Z;
  verbose : bool
}.

(** [ModelSelector.__init__]: the two subscripts raise [KeyError] when
    [this_word] is not a key. *)
Definition init (all_word_sequences : dict (list sequence))
    (all_word_Xlengths : dict Xlengths) (this_word : string)
    (n_constant min_n_components max_n_components random_state : Z)
    (verbose : bool) : outcome ModelSelector :=
  match dict_get all_word_sequences this_word with
  | None => Raised
  | Some seqs =>
      match dict_get all_word_Xlengths this_word with
      | None => Raised
      | Some (x, l) =>
          Returned {| words := all_word_sequences;
                      hwords := all_word_Xlengths;
                      sequences := seqs;
                      X := x;
                      lengths := l;
                      this_word := this_word;
                      n_constant := n_constant;
                      min_n_components := min_n_components;
                      max_n_components := max_n_components;
                      random_state := random_state;
                      verbose := verbose |}
      end
  end.

(** [base_model]: a fit that raises gives [None]. *)
Definition base_model (self : ModelSelector) (num_states : Z) : option GaussianHMM :=
  match GaussianHMM_fit num_states (random_state self) (X self, lengths self) with
  | Returned hmm_model => Some hmm_model
  | Raised => None
  end.

(** [SelectorConstant.select] *)
Definition SelectorConstant_select (self : ModelSelector) : option GaussianHMM :=
  let best_num_components := n_constant self in
  base_model self best_num_components.

(** The candidates of a search: [range(min_n_components, max_n_components + 1)]. *)
Definition candidates (self : ModelSelector) : list Z :=
  range (min_n_components self) (max_n_components self + 1).

(** [SelectorBIC.select]: the [try] body up to [bic_score].  [model] is
    [None] when the fit failed, and [model.score] then raises. *)
Definition bic_candidate (self : ModelSelector) (n_component : Z)
    : outcome (float * GaussianHMM) :=
  match base_model self n_component with
  | None => Raised
  | Some model =>
      match GaussianHMM_score model (X self, lengths self) with
      | Raised => Raised
      | Returned logL =>
          let p := n_component ^ 2 + 2 * n_component * n_features model - 1 in
          let bic_score :=
            add (mul (of_int (-2)) logL) (mul (of_int p) (np_log (shape0 (X self)))) in
          Returned (bic_score, model)
      end
  end.

Definition bic_step (self : ModelSelector) (st : float * option GaussianHMM)
    (n_component : Z) : float * option GaussianHMM :=
  let '(best_bic_score, best_model) := st in
  match bic_candidate self n_component with
  | Raised => st
  | Returned (bic_score, model) =>
      if ltb bic_score best_bic_score then (bic_score, Some model) else st
  end.

Definition SelectorBIC_select (self : ModelSelector) : option GaussianHMM :=
  snd (fold_left (bic_step self) (candidates self) (inf, None)).

(** [SelectorDIC.select] *)
Definition aginst_words (self : ModelSelector) : list string :=
  filter (fun word => negb (String.eqb word (this_word self))) (dict_keys (words self)).

(** The inner [for word in aginst_words] loop. *)
Fixpoint sum_other (self : ModelSelector) (model : GaussianHMM)
    (ws : list string) (sum_other_logL : float) : outcome float :=
  match ws with
  | [] => Returned sum_other_logL
  | word :: ws' =>
      match dict_get (hwords self) word with
      | None => Raised
      | Some other =>
          match GaussianHMM_score model other with
          | Raised => Raised
          | Returned v => sum_other self model ws' (add sum_other_logL v)
          end
      end
  end.

Definition dic_candidate (self : ModelSelector) (n_component : Z)
    : outcome (float * GaussianHMM) :=
  match base_model self n_component with
  | None => Raised
  | Some model =>
      match GaussianHMM_score model (X self, lengths self) with
      | Raised => Raised
      | Returned logL =>
          match sum_other self model (aginst_words self) (S754_zero false) with
          | Raised => Raised
          | Returned sum_other_logL =>
              match truediv sum_other_logL (Z.of_nat (length (words self)) - 1) with
              | Raised => Raised
              | Returned mean => Returned (sub logL mean, model)
              end
          end
      end
  end.

Definition dic_step (self : ModelSelector) (st : float * option GaussianHMM)
    (n_component : Z) : float * option GaussianHMM :=
  let '(best_dic_score, best_model) := st in
  match dic_candidate self n_component with
  | Raised => st
  | Returned (dic_score, model) =>
      if gtb dic_score best_dic_score then (dic_score, Some model) else st
  end.

Definition SelectorDIC_select (self : ModelSelector) : option GaussianHMM :=
  snd (fold_left (dic_step self) (candidates self) (ninf, None)).

(** [SelectorCV.select].  The local variable [model] lives across the
    iterations of the search; it is unbound ([None]) until a fold fit
    assigns it. *)
Record cv_state : Type := {
  cv_best_score : float;
  cv_best_model : option GaussianHMM;
  cv_model : option GaussianHMM
}.

Definition cv_init : cv_state :=
  {| cv_best_score := ninf; cv_best_model := None; cv_model := None |}.

(** The [for cv_train_idx, cv_test_idx in split_method.split(...)] loop:
    the outcome carries [score] and [iter_num]; the second component is
    the local variable [model], which keeps its assignment also when a
    later call raises. *)
Fixpoint cv_folds (self : ModelSelector) (n_component : Z)
    (folds : list (list nat * list nat)) (score : float) (iter_num : Z)
    (model : option GaussianHMM) : outcome (float * Z) * option GaussianHMM :=
  match folds with
  | [] => (Returned (score, iter_num), model)
  | (cv_train_idx, cv_test_idx) :: rest =>
      let train := combine_sequences cv_train_idx (sequences self) in
      let test := combine_sequences cv_test_idx (sequences self) in
      match GaussianHMM_fit n_component (random_state self) train with
      | Raised => (Raised, model)
      | Returned m =>
          match GaussianHMM_score m test with
          | Raised => (Raised, Some m)
          | Returned v => cv_folds self n_component rest (add score v) (iter_num + 1) (Some m)
          end
      end
  end.

Definition num_splits (self : ModelSelector) : Z :=
  Z.min (Z.of_nat (length (sequences self))) 3.

(** The [try] body up to the comparison: [score] and [last_model], or
    [Raised]; with the local variable [model] afterwards. *)
Definition cv_candidate (self : ModelSelector) (n_component : Z)
    (model : option GaussianHMM)
    : outcome (float * option GaussianHMM) * option GaussianHMM :=
  if (length (sequences self) <=? 1)%nat then
    match GaussianHMM_fit n_component (random_state self) (X self, lengths self) with
    | Raised => (Raised, model)
    | Returned last_model =>
        match model with
        | None => (Raised, model)
        | Some m =>
            match GaussianHMM_score m (X self, lengths self) with
            | Raised => (Raised, model)
            | Returned score => (Returned (score, Some last_model), model)
            end
        end
    end
  else
    let folds := KFold_split (num_splits self) (length (sequences self)) in
    match cv_folds self n_component folds (of_int 0) 0 model with
    | (Raised, model') => (Raised, model')
    | (Returned (score, iter_num), model') =>
        match truediv score iter_num with
        | Raised => (Raised, model')
        | Returned mean => (Returned (mean, None), model')
        end
    end.

(** One iteration of the search.  [best_score] is assigned before the
    full-data fit is attempted. *)
Definition cv_step (self : ModelSelector) (st : cv_state) (n_component : Z) : cv_state :=
  match cv_candidate self n_component (cv_model st) with
  | (Raised, model') =>
      {| cv_best_score := cv_best_score st; cv_best_model := cv_best_model st;
         cv_model := model' |}
  | (Returned (score, last_model), model') =>
      if ltb (cv_best_score st) score then
        match last_model with
        | Some lm =>
            {| cv_best_score := score; cv_best_model := Some lm; cv_model := model' |}
        | None =>
            match GaussianHMM_fit n_component (random_state self)
                    (X self, lengths self) with
            | Returned lm =>
                {| cv_best_score := score; cv_best_model := Some lm; cv_model := model' |}
            | Raised =>
                {| cv_best_score := score; cv_best_model := cv_best_model st;
                   cv_model := model' |}
            end
        end
      else
        {| cv_best_score := cv_best_score st; cv_best_model := cv_best_model st;
           cv_model := model' |}
  end.

Definition SelectorCV_select (self : ModelSelector) : option GaussianHMM :=
  cv_best_model (fold_left (cv_step self) (candidates self) cv_init).

End Program.

(** ** Reading aids for the statements *)

Section Reading.

Context {lib : HMMLib}.

(** One fold of the cross-validation of a candidate: fit on the
    training part, score on the held-out part. *)
Definition fold_score (self : ModelSelector) (n_component : Z)
    (fold : list nat * list nat) : outcome float :=
  match GaussianHMM_fit n_component (random_state self)
          (combine_sequences (fst fold) (sequences self)) with
  | Raised => Raised
  | Returned m => GaussianHMM_score m (combine_sequences (snd fold) (sequences self))
  end.

Definition fold_fails (self : ModelSelector) (n_component : Z)
    (fold : list nat * list nat) : bool :=
  match fold_score self n_component fold with
  | Raised => true
  | Returned _ => false
  end.

Definition fold_value (self : ModelSelector) (n_component : Z)
    (fold : list nat * list nat) : float :=
  match fold_score self n_component fold with
  | Raised => nan
  | Returned v => v
  end.

Definition cv_splits (self : ModelSelector) : list (list nat * list nat) :=
  KFold_split (num_splits self) (List.length (sequences self)).

(** The cross-validation score of a candidate as the specification
    words it: a fold whose fit or score fails is skipped on its own, the
    remaining folds are averaged, and there is no score only when every
    fold fails. *)
Definition spec_cv_score (self : ModelSelector) (n_component : Z) : option float :=
  let ok := filter (fun fold => negb (fold_fails self n_component fold)) (cv_splits self) in
  match ok with
  | [] => None
  | _ => Some (div (fold_left add (map (fold_value self n_component) ok) (of_int 0))
                   (of_int (Z.of_nat (List.length ok))))
  end.

(** The scores of one test item against every model, word by word in
    the order of [models]; a failed scoring call counts as [-inf]. *)
Definition scored (models : dict GaussianHMM) (x : Xlengths) : dict float :=
  map (fun wm => (fst wm, try_score (snd wm) x)) models.

(** [v] is the score of [model] on the data of the word [w]. *)
Definition scores_word (self : ModelSelector) (model : GaussianHMM)
    (w : string) (v : float) : Prop :=
  exists other, dict_get (hwords self) w = Some other /\
                GaussianHMM_score model other = Returned v.

(** The average held-out log-likelihood of a candidate in the branch of
    several examples: [score / iter_num] after the fold loop, or [Raised]
    when a fold raises. *)
Definition cv_mean (self : ModelSelector) (n_component : Z) : outcome float :=
  match fst (cv_folds self n_component (cv_splits self) (of_int 0) 0 None) with
  | Raised => Raised
  | Returned (score, iter_num) => truediv score iter_num
  end.

(** A candidate of the cross-validation search together with its fit
    on the full data. *)
Definition cv_refit (self : ModelSelector) (n_component : Z)
    : outcome (float * GaussianHMM) :=
  match cv_mean self n_component with
  | Raised => Raised
  | Returned mean =>
      match GaussianHMM_fit n_component (random_state self) (X self, lengths self) with
      | Raised => Raised
      | Returned m => Returned (mean, m)
      end
  end.

(** A selector that differs in its search range only. *)
Definition with_range (self : ModelSelector) (lo hi : Z) : ModelSelector :=
  {| words := words self; hwords := hwords self; sequences := sequences self;
     X := X self; lengths := lengths self; this_word := this_word self;
     n_constant := n_constant self;
     min_n_components := lo; max_n_components := hi;
     random_state := random_state self; verbose := verbose self |}.

End Reading.

(** The shape shared by the search loops: a best value starting from a
    sentinel, replaced only by a strictly better one. *)
Section Search.

Context {C M : Type}.
Variable better : float -> float -> bool.
Variable eval : C -> outcome (float * M).

Definition search_step (st : float * option M) (c : C) : float * option M :=
  let '(best, kept) := st in
  match eval c with
  | Raised => st
  | Returned (v, m) => if better v best then (v, Some m) else st
  end.

Definition search (cands : list C) (st : float * option M) : float * option M :=
  fold_left search_step cands st.

End Search.

(** ** Concrete collaborators for worked examples *)

Module Toy.

(** Modelled from the spec: the FoldSplitter, a deterministic k-way
    partition into (train indices, test indices) pairs; as scikit-learn's
    unshuffled [KFold], folds are contiguous and the first
    [n_samples mod n_splits] folds hold one item more. *)
Definition kfold (n_splits : Z) (n_samples : nat) : list (list nat * list nat) :=
  let k := Z.to_nat n_splits in
  let size i := (n_samples / k + (if i <? n_samples mod k then 1 else 0))%nat in
  let start i := (i * (n_samples / k) + Nat.min i (n_samples mod k))%nat in
  map (fun i =>
         (filter (fun j => negb ((start i <=? j) && (j <? start i + size i))%nat)
                 (seq 0 n_samples),
          seq (start i) (size i)))
      (seq 0 k).

(** Modelled from the spec: ConcatenatedSequences, the pair (flattened
    feature matrix, per-example lengths) of the selected sequences. *)
Definition combine {F : Type} (split_index_list : list nat)
    (sequences : list (list F)) : list F * list Z :=
  let sequences_fold := map (fun idx => nth idx sequences []) split_index_list in
  (concat sequences_fold, map (fun l => Z.of_nat (List.length l)) sequences_fold).

(** ln 1, ln 2 and ln 4 as binary64 values; a coarse stand-in elsewhere. *)
Definition log (n : Z) : float :=
  if n =? 1 then S754_zero false
  else if n =? 2 then S754_finite false 6243314768165359 (-53)
  else if n =? 4 then S754_finite false 6243314768165359 (-52)
  else of_int (Z.log2 n).

(** A toy model remembers its state count and its training data. *)
Record model : Type := { tm_k : Z; tm_train : list Z * list Z }.

Definition lib (fit_fails : Z -> list Z * list Z -> bool)
    (score : model -> list Z * list Z -> outcome float) : HMMLib :=
  {| frame := Z;
     GaussianHMM := model;
     GaussianHMM_fit := fun k _ xl =>
       if fit_fails k xl then Raised else Returned {| tm_k := k; tm_train := xl |};
     GaussianHMM_score := score;
     n_features := fun _ => 1;
     np_log := log;
     KFold_split := kfold;
     combine_sequences := combine |}.

Definition one : float := of_int 1.
Definition five : float := of_int 5.
Definition ten : float := of_int 10.

Definition never (_ : Z) (_ : list Z * list Z) : bool := false.

(** Two words: BOOK with two one-frame examples, VEGETABLE with one. *)
Definition book_sequences : list (list Z) := [[1]; [2]].
Definition all_sequences : dict (list (list Z)) :=
  [("BOOK"%string, book_sequences); ("VEGETABLE"%string, [[7; 8]])].
Definition all_Xlengths : dict (list Z * list Z) :=
  [("BOOK"%string, ([1; 2], [1; 1])); ("VEGETABLE"%string, ([7; 8], [2]))].

(** The selector of BOOK over the range [lo..hi], as [__init__] builds it. *)
Definition book (fit_fails : Z -> list Z * list Z -> bool)
    (score : model -> list Z * list Z -> outcome float) (lo hi : Z)
    : @ModelSelector (lib fit_fails score) :=
  @Build_ModelSelector (lib fit_fails score) all_sequences all_Xlengths
    book_sequences [1; 2] [1; 1] "BOOK"%string 3 lo hi 14 false.

(** The selector of VEGETABLE, a word with a single example. *)
Definition vegetable (fit_fails : Z -> list Z * list Z -> bool)
    (score : model -> list Z * list Z -> outcome float) (lo hi : Z)
    : @ModelSelector (lib fit_fails score) :=
  @Build_ModelSelector (lib fit_fails score) all_sequences all_Xlengths
    [[7; 8]] [7; 8] [2] "VEGETABLE"%string 3 lo hi 14 false.

(** Scores by state count: 1.0 with two states, 10.0 with three, 5.0
    otherwise. *)
Definition score_by_k (m : model) (_ : list Z * list Z) : outcome float :=
  Returned (if tm_k m =? 2 then one else if tm_k m =? 3 then ten else five).

(** The fit with three states fails on the full BOOK data (two frames)
    and on no other data. *)
Definition full_fit_fails_at_3 (k : Z) (xl : list Z * list Z) : bool :=
  (k =? 3) && (List.length (fst xl) =? 2)%nat.

(** The fit fails on the training part made of the second example alone. *)
Definition fit_fails_on_second (k : Z) (xl : list Z * list Z) : bool :=
  match fst xl with [2] => true | _ => false end.

(** Every score is [-inf]. *)
Definition score_ninf (_ : model) (_ : list Z * list Z) : outcome float :=
  Returned ninf.

(** [-inf] on BOOK's own data, 5.0 on any other data. *)
Definition score_ninf_on_book (_ : model) (xl : list Z * list Z) : outcome float :=
  Returned (match fst xl with [1; 2] => ninf | _ => five end).

(** Recognizer models: the state count tells how a model scores:
    0 raises, 1 gives NaN, otherwise the state count as a float. *)
Definition score_recognizer (m : model) (_ : list Z * list Z) : outcome float :=
  if tm_k m =? 0 then Raised
  else if tm_k m =? 1 then Returned nan
  else Returned (of_int (tm_k m)).

Definition trained (k : Z) : model := {| tm_k := k; tm_train := ([], []) |}.

(** A model that gives NaN, one that gives 2.0, one that raises. *)
Definition mixed_models : dict model :=
  [("A"%string, trained 1); ("B"%string, trained 2); ("C"%string, trained 0)].

(** The same three models with the NaN-scoring one after the first. *)
Definition nan_later_models : dict model :=
  [("B"%string, trained 2); ("A"%string, trained 1); ("C"%string, trained 0)].

(** Two models that raise on every item. *)
Definition failing_models : dict model :=
  [("A"%string, trained 0); ("B"%string, trained 0)].

Definition test_item : list Z * list Z := ([1], [1]).

(** The worked examples. *)
Definition plain_lib : HMMLib := lib never score_by_k.
Definition refit_lib : HMMLib := lib full_fit_fails_at_3 score_by_k.
Definition partial_lib : HMMLib := lib fit_fails_on_second score_by_k.
Definition ninf_lib : HMMLib := lib never score_ninf.
Definition ninf_on_book_lib : HMMLib := lib never score_ninf_on_book.
Definition recognizer_lib : HMMLib := lib never score_recognizer.

Definition plain_book : @ModelSelector plain_lib := book never score_by_k 2 4.
Definition plain_vegetable : @ModelSelector plain_lib := vegetable never score_by_k 2 4.
Definition backwards_book : @ModelSelector plain_lib := book never score_by_k 5 2.
Definition zero_book : @ModelSelector plain_lib := book never score_by_k 0 3.
Definition refit_book : @ModelSelector refit_lib := book full_fit_fails_at_3 score_by_k 2 4.
Definition partial_book : @ModelSelector partial_lib :=
  book fit_fails_on_second score_by_k 2 2.
Definition ninf_book : @ModelSelector ninf_lib := book never score_ninf 2 2.
Definition ninf_on_book : @ModelSelector ninf_on_book_lib :=
  book never score_ninf_on_book 2 2.

(** BOOK when the [hwords] lookup has no entry for VEGETABLE. *)
Definition orphan_book : @ModelSelector plain_lib :=
  @Build_ModelSelector plain_lib all_sequences
    [("BOOK"%string, ([1; 2], [1; 1]))]
    book_sequences [1; 2] [1; 1] "BOOK"%string 3 2 4 14 false.

(** BOOK as the only word of the vocabulary. *)
Definition solo_sequences : dict (list (list Z)) := [("BOOK"%string, book_sequences)].
Definition solo_Xlengths : dict (list Z * list Z) := [("BOOK"%string, ([1; 2], [1; 1]))].
Definition solo_book : @ModelSelector plain_lib :=
  @Build_ModelSelector plain_lib solo_sequences solo_Xlengths
    book_sequences [1; 2] [1; 1] "BOOK"%string 3 2 4 14 false.

(** A model of [k] states fit on BOOK's full data. *)
Definition full (k : Z) : model := {| tm_k := k; tm_train := ([1; 2], [1; 1]) |}.

End Toy.

(** ** Order facts about float comparison *)

Section FloatOrder.

Lemma lex_pos_lt (e1 e2 : Z) (m1 m2 : positive) :
  match e1 ?= e2 with
  | Lt => Lt
  | Gt => Gt
  | Eq => Pos.compare_cont Eq m1 m2
  end = Lt <-> (e1 < e2 \/ (e1 = e2 /\ (m1 < m2)%positive)).
Proof.
  change (Pos.compare_cont Eq m1 m2) with (m1 ?= m2)%positive.
  destruct (Z.compare_spec e1 e2) as [He|He|He];
    destruct (Pos.compare_spec m1 m2) as [Hm|Hm|Hm];
    split; intros H; try discriminate; try reflexivity; try lia.
Qed.

Lemma lex_neg_lt (e1 e2 : Z) (m1 m2 : positive) :
  match e1 ?= e2 with
  | Lt => Gt
  | Gt => Lt
  | Eq => CompOpp (Pos.compare_cont Eq m1 m2)
  end = Lt <-> (e2 < e1 \/ (e1 = e2 /\ (m2 < m1)%positive)).
Proof.
  change (Pos.compare_cont Eq m1 m2) with (m1 ?= m2)%positive.
  destruct (Z.compare_spec e1 e2) as [He|He|He];
    destruct (Pos.compare_spec m1 m2) as [Hm|Hm|Hm];
    split; intros H; try discriminate; try reflexivity; try lia.
Qed.

(** Nothing is below itself. *)
Lemma ltb_irrefl (x : float) : ltb x x = false.
Proof.
  destruct x as [s|s| |s m e]; try (destruct s; reflexivity); try reflexivity.
  unfold ltb, SFltb, SFcompare.
  destruct s.
  - destruct (match e ?= e with Lt => Gt | Gt => Lt
              | Eq => CompOpp (Pos.compare_cont Eq m m) end) eqn:E; try reflexivity.
    apply lex_neg_lt in E. lia.
  - destruct (match e ?= e with Lt => Lt | Gt => Gt
              | Eq => Pos.compare_cont Eq m m end) eqn:E; try reflexivity.
    apply lex_pos_lt in E. lia.
Qed.

Lemma ltb_finite_spec (s1 s2 : bool) (m1 m2 : positive) (e1 e2 : Z) :
  ltb (S754_finite s1 m1 e1) (S754_finite s2 m2 e2) = true <->
  match s1, s2 with
  | true, false => True
  | false, true => False
  | false, false => e1 < e2 \/ (e1 = e2 /\ (m1 < m2)%positive)
  | true, true => e2 < e1 \/ (e1 = e2 /\ (m2 < m1)%positive)
  end.
Proof.
  unfold ltb, SFltb, SFcompare.
  destruct s1, s2.
  - rewrite <- lex_neg_lt.
    destruct (match e1 ?= e2 with Lt => Gt | Gt => Lt
              | Eq => CompOpp (Pos.compare_cont Eq m1 m2) end);
      split; intros H; try discriminate; reflexivity.
  - split; [intros _; exact I | reflexivity].
  - split; [discriminate | intros []].
  - rewrite <- lex_pos_lt.
    destruct (match e1 ?= e2 with Lt => Lt | Gt => Gt
              | Eq => Pos.compare_cont Eq m1 m2 end);
      split; intros H; try discriminate; reflexivity.
Qed.

(** [<] is transitive, NaN included (no comparison with NaN holds). *)
Lemma ltb_trans (x y z : float) :
  ltb x y = true -> ltb y z = true -> ltb x z = true.
Proof.
  destruct x as [sx|sx| |sx mx ex], y as [sy|sy| |sy my ey],
           z as [sz|sz| |sz mz ez];
    try (intros H1 H2; apply ltb_finite_spec in H1, H2; apply ltb_finite_spec;
         destruct sx, sy, sz; tauto || lia);
    try (destruct sx; discriminate); try (destruct sy; discriminate);
    try (destruct sx, sy; discriminate);
    try (destruct sy, sz; discriminate);
    try discriminate;
    try (destruct sx, sy, sz; (discriminate || reflexivity)).
Qed.

(** A value that is not NaN is [-inf] itself or above it. *)
Lemma ninf_or_above (x : float) :
  is_nan x = false -> x = ninf \/ gtb x ninf = true.
Proof.
  destruct x as [s|s| |s m e]; intros H; try discriminate;
    try (right; destruct s; reflexivity).
  destruct s; [left | right]; reflexivity.
Qed.

Lemma finite_above_ninf (x : float) : is_finite x = true -> gtb x ninf = true.
Proof.
  destruct x as [s|s| |s m e]; intros H; try discriminate; destruct s; reflexivity.
Qed.

Lemma gtb_irrefl (v : float) : gtb v v = false.
Proof. apply ltb_irrefl. Qed.

Lemma gtb_trans (a b c : float) :
  gtb a b = true -> gtb b c = true -> gtb a c = true.
Proof. unfold gtb. intros H1 H2. eapply ltb_trans; eauto. Qed.

End FloatOrder.

(** ** Dicts and ranges *)

Section Containers.

Context {V : Type}.

Lemma dict_set_fresh (d : dict V) (k : string) (v : V) :
  ~ In k (dict_keys d) -> dict_set d k v = d ++ [(k, v)].
Proof.
  induction d as [|[k' v'] d IH]; simpl; intros Hk; [reflexivity|].
  destruct (String.eqb_spec k' k) as [->|Hne].
  - exfalso. apply Hk. now left.
  - rewrite IH; [reflexivity|]. intros Hin. apply Hk. now right.
Qed.

Lemma dict_get_in (d : dict V) (k : string) (v : V) :
  NoDup (dict_keys d) -> In (k, v) d -> dict_get d k = Some v.
Proof.
  induction d as [|[k' v'] d IH]; simpl; intros Hnd Hin; [contradiction|].
  inversion Hnd as [|? ? Hk Hnd']; subst.
  destruct Hin as [Heq|Hin].
  - inversion Heq; subst. now rewrite String.eqb_refl.
  - destruct (String.eqb_spec k' k) as [->|Hne].
    + exfalso. apply Hk. change k with (fst (k, v)). now apply in_map.
    + now apply IH.
Qed.

End Containers.

Lemma in_range (lo hi k : Z) : In k (range lo hi) <-> lo <= k < hi.
Proof.
  unfold range. rewrite in_map_iff. split.
  - intros (i & <- & Hi). apply in_seq in Hi. lia.
  - intros Hk. exists (Z.to_nat (k - lo)). split; [lia|].
    apply in_seq. lia.
Qed.

Lemma range_empty (lo hi : Z) : hi <= lo -> range lo hi = [].
Proof.
  intros H. unfold range. replace (Z.to_nat (hi - lo)) with 0%nat by lia. reflexivity.
Qed.

(** An invariant kept by every step of a loop holds at its end. *)
Lemma fold_left_invariant {A B : Type} (P : A -> Prop) (f : A -> B -> A) (l : list B) :
  forall a, P a -> (forall a b, In b l -> P a -> P (f a b)) -> P (fold_left f l a).
Proof.
  induction l as [|b l IH]; simpl; intros a Ha Hstep; [exact Ha|].
  apply IH.
  - apply Hstep; [now left | exact Ha].
  - intros a' b' Hb'. apply Hstep. now right.
Qed.

(** ** The search loop *)

Section SearchFacts.

Context {C M : Type}.
Variable better : float -> float -> bool.
Variable eval : C -> outcome (float * M).
Hypothesis better_irrefl : forall x, better x x = false.
Hypothesis better_trans :
  forall x y z, better x y = true -> better y z = true -> better x z = true.

(** Either no candidate is strictly better than the starting value and
    the state is unchanged, or the loop ends on a candidate that is
    strictly better than the starting value and that no candidate
    beats. *)
Lemma search_spec (cands : list C) :
  forall (best : float) (kept : option M),
    (search better eval cands (best, kept) = (best, kept) /\
     forall c v m, In c cands -> eval c = Returned (v, m) -> better v best = false)
    \/
    (exists c v m,
        In c cands /\ eval c = Returned (v, m) /\
        search better eval cands (best, kept) = (v, Some m) /\
        better v best = true /\
        forall c' v' m', In c' cands -> eval c' = Returned (v', m') ->
                         better v' v = false).
Proof.
  induction cands as [|c cands IH]; intros best kept.
  - left. split; [reflexivity | intros ? ? ? []].
  - unfold search. simpl. fold (search better eval cands).
    destruct (eval c) as [[v m]|] eqn:Ec.
    + destruct (better v best) eqn:Hb.
      * right.
        destruct (IH v (Some m))
          as [[Hs Hall]|(c2 & v2 & m2 & Hin & He & Hs & Hb2 & Hall)].
        -- exists c, v, m.
           split; [now left|]. split; [exact Ec|]. split; [exact Hs|].
           split; [exact Hb|].
           intros c' v' m' [<-|Hin'] He'.
           ++ rewrite Ec in He'. inversion He'; subst. apply better_irrefl.
           ++ eapply Hall; eauto.
        -- exists c2, v2, m2.
           split; [now right|]. split; [exact He|]. split; [exact Hs|].
           split; [eapply better_trans; eauto|].
           intros c' v' m' [<-|Hin'] He'.
           ++ rewrite Ec in He'. inversion He'; subst.
              destruct (better v' v2) eqn:Hc; [|reflexivity].
              rewrite <- (better_irrefl v2). symmetry. eauto.
           ++ eapply Hall; eauto.
      * destruct (IH best kept)
          as [[Hs Hall]|(c2 & v2 & m2 & Hin & He & Hs & Hb2 & Hall)].
        -- left. split; [exact Hs|].
           intros c' v' m' [<-|Hin'] He'.
           ++ rewrite Ec in He'. inversion He'; subst. exact Hb.
           ++ eapply Hall; eauto.
        -- right. exists c2, v2, m2.
           split; [now right|]. split; [exact He|]. split; [exact Hs|].
           split; [exact Hb2|].
           intros c' v' m' [<-|Hin'] He'.
           ++ rewrite Ec in He'. inversion He'; subst.
              destruct (better v' v2) eqn:Hc; [|reflexivity].
              rewrite <- Hb. symmetry. eauto.
           ++ eapply Hall; eauto.
    + destruct (IH best kept)
        as [[Hs Hall]|(c2 & v2 & m2 & Hin & He & Hs & Hb2 & Hall)].
      * left. split; [exact Hs|].
        intros c' v' m' [<-|Hin'] He'; [congruence | eapply Hall; eauto].
      * right. exists c2, v2, m2.
        split; [now right|]. split; [exact He|]. split; [exact Hs|].
        split; [exact Hb2|].
        intros c' v' m' [<-|Hin'] He'; [congruence | eapply Hall; eauto].
Qed.

End SearchFacts.

(** ** The recognizer *)

Section RecognizerFacts.

Context {lib : HMMLib}.

Lemma scored_keys (models : dict GaussianHMM) (x : Xlengths) :
  dict_keys (scored models x) = dict_keys models.
Proof.
  unfold scored, dict_keys. rewrite map_map. reflexivity.
Qed.

Lemma recognize_word_prob (x : Xlengths) (models : dict GaussianHMM) :
  forall st,
    NoDup (dict_keys (word_prob st) ++ dict_keys models) ->
    word_prob (fold_left (recognize_word x) models st)
    = word_prob st ++ scored models x.
Proof.
  induction models as [|[w m] models IH]; intros st Hnd.
  - simpl. now rewrite app_nil_r.
  - assert (Hfresh : ~ In w (dict_keys (word_prob st))).
    { intros Hin. apply NoDup_remove_2 in Hnd. apply Hnd.
      apply in_or_app. now left. }
    assert (Hwp : word_prob (recognize_word x st (w, m))
                  = word_prob st ++ [(w, try_score m x)]).
    { unfold recognize_word.
      destruct (gtb (try_score m x) (best_score st)); simpl;
        now rewrite (dict_set_fresh _ _ _ Hfresh). }
    cbn [fold_left]. rewrite IH.
    + rewrite Hwp, <- app_assoc. reflexivity.
    + rewrite Hwp. unfold dict_keys in *. rewrite map_app, <- app_assoc.
      exact Hnd.
Qed.

(** With a dict of models (distinct keys), the row of an item holds one
    score per word of [models], in the same order. *)
Lemma recognize_item_row (models : dict GaussianHMM) (x : Xlengths) :
  NoDup (dict_keys models) ->
  word_prob (recognize_item models x) = scored models x.
Proof.
  intros Hnd. unfold recognize_item. now rewrite recognize_word_prob.
Qed.

(** The best score and guess follow the search loop over the row. *)
Lemma recognize_item_best (x : Xlengths) (models : dict GaussianHMM) :
  forall st,
    (best_score (fold_left (recognize_word x) models st),
     best_guess (fold_left (recognize_word x) models st))
    = search gtb (fun ws : string * float => Returned (snd ws, fst ws))
        (scored models x) (best_score st, best_guess st).
Proof.
  induction models as [|[w m] models IH]; intros st; simpl; [reflexivity|].
  rewrite IH. unfold search. simpl. unfold recognize_word.
  destruct (gtb (try_score m x) (best_score st)); reflexivity.
Qed.

(** The guess of an item: absent when no score is above [-inf], else a
    word whose score is above [-inf] and below no score of the row. *)
Lemma recognize_item_guess (models : dict GaussianHMM) (x : Xlengths) :
  (best_guess (recognize_item models x) = None /\
   best_score (recognize_item models x) = ninf /\
   forall w s, In (w, s) (scored models x) -> gtb s ninf = false)
  \/
  (exists w s,
      In (w, s) (scored models x) /\
      best_guess (recognize_item models x) = Some w /\
      best_score (recognize_item models x) = s /\
      gtb s ninf = true /\
      forall w' s', In (w', s') (scored models x) -> gtb s' s = false).
Proof.
  pose proof (recognize_item_best x models item_init) as Hb.
  fold (recognize_item models x) in Hb. simpl in Hb.
  destruct (search_spec gtb (fun ws : string * float => Returned (snd ws, fst ws))
              gtb_irrefl gtb_trans (scored models x) ninf None)
    as [[Hs Hall]|([w s] & v & m & Hin & He & Hs & Hgt & Hall)].
  - left. rewrite Hs in Hb. injection Hb as H1 H2.
    split; [exact H2|]. split; [exact H1|].
    intros w s Hin. apply (Hall (w, s) s w Hin). reflexivity.
  - right. simpl in He. injection He as Hv Hm. subst v m.
    rewrite Hs in Hb. injection Hb as H1 H2.
    exists w, s. split; [exact Hin|]. split; [exact H2|]. split; [exact H1|].
    split; [exact Hgt|].
    intros w' s' Hin'. apply (Hall (w', s') s' w' Hin'). reflexivity.
Qed.

Lemma recognize_loop_eq (models : dict GaussianHMM) (test_set : SinglesData) :
  forall (rest done : list Xlengths) probabilities guesses,
    test_set = done ++ rest ->
    recognize_loop models test_set (seq (List.length done) (List.length rest))
      probabilities guesses
    = Returned
        (probabilities ++ map (fun x => word_prob (recognize_item models x)) rest,
         guesses ++ map (fun x => best_guess (recognize_item models x)) rest).
Proof.
  induction rest as [|x rest IH]; intros done probabilities guesses Hts; simpl.
  - now rewrite !app_nil_r.
  - unfold get_item_Xlengths.
    assert (Hx : nth_error test_set (List.length done) = Some x).
    { rewrite Hts, nth_error_app2 by lia. now rewrite Nat.sub_diag. }
    rewrite Hx.
    specialize (IH (done ++ [x])). rewrite length_app in IH. simpl in IH.
    rewrite Nat.add_1_r in IH. rewrite IH.
    + now rewrite <- !app_assoc.
    + now rewrite <- app_assoc.
Qed.

(** [recognize] never raises: it returns one row and one guess per test
    item, in the order of the items. *)
Lemma recognize_eq (models : dict GaussianHMM) (test_set : SinglesData) :
  recognize models test_set
  = Returned (map (fun x => word_prob (recognize_item models x)) test_set,
              map (fun x => best_guess (recognize_item models x)) test_set).
Proof.
  unfold recognize.
  apply (recognize_loop_eq models test_set test_set [] [] []). reflexivity.
Qed.

(** With no NaN involved, the running best score of the recognizer and
    Python's [max] agree on a non-empty row. *)
Lemma search_fst_pymax (row : dict float) :
  forall (best : float) (g : option string),
    fst (search gtb (fun ws : string * float => Returned (snd ws, fst ws))
           row (best, g))
    = fold_left (fun m v => if gtb v m then v else m) (dict_values row) best.
Proof.
  induction row as [|[w s] row IH]; intros best g; [reflexivity|].
  unfold search. simpl.
  fold (search gtb (fun ws : string * float => Returned (snd ws, fst ws)) row).
  destruct (gtb s best); apply IH.
Qed.

(** When the first value of a row is not NaN, the running best score
    and Python's [max] of the row agree. *)
Lemma best_score_pymax (models : dict GaussianHMM) (x : Xlengths)
    (w1 : string) (s1 : float) (rest : dict float) :
  scored models x = (w1, s1) :: rest ->
  is_nan s1 = false ->
  pymax (dict_values (scored models x)) = Some (best_score (recognize_item models x)).
Proof.
  intros Hrow Hnan.
  pose proof (recognize_item_best x models item_init) as Hb.
  fold (recognize_item models x) in Hb. simpl in Hb.
  apply (f_equal fst) in Hb. simpl in Hb. rewrite Hb, Hrow.
  simpl. f_equal. unfold search. simpl.
  fold (search gtb (fun ws : string * float => Returned (snd ws, fst ws)) rest).
  destruct (ninf_or_above s1 Hnan) as [->|Hgt].
  - simpl. symmetry. apply search_fst_pymax.
  - rewrite Hgt. symmetry. apply search_fst_pymax.
Qed.

(** When the first value is NaN, Python's [max] is NaN: nothing is
    above NaN. *)
Lemma pymax_nan_first (s1 : float) (rest : list float) :
  is_nan s1 = true -> pymax (s1 :: rest) = Some nan.
Proof.
  destruct s1; try discriminate. intros _. simpl. f_equal.
  induction rest as [|v rest IH]; [reflexivity|].
  simpl. replace (gtb v S754_nan) with false by (destruct v; reflexivity).
  exact IH.
Qed.

Lemma above_ninf_not_nan (s : float) : gtb s ninf = true -> is_nan s = false.
Proof. destruct s; intros H; try reflexivity; discriminate. Qed.

Lemma eqb_nan_r (s : float) : eqb s nan = false.
Proof. destruct s; reflexivity. Qed.

Lemma scored_in (models : dict GaussianHMM) (x : Xlengths) (w : string) (v : float) :
  In (w, v) (scored models x) <->
  exists m, In (w, m) models /\ v = try_score m x.
Proof.
  unfold scored. rewrite in_map_iff. split.
  - intros ([w' m] & Heq & Hin). simpl in Heq. injection Heq as <- <-.
    exists m. split; [exact Hin | reflexivity].
  - intros (m & Hin & ->). exists (w, m). split; [reflexivity | exact Hin].
Qed.

(** C1: [recognize] returns for every dict of models and every test
    set; in the row of each test item, a model whose scoring call
    raises is recorded with the score [-inf]; and when every model of
    the dict fails on an item, the row of that item holds [-inf] for
    every word and the guess of that item is the absent guess [None]. *)
Theorem recognize_tolerates_score_failures
    (models : dict GaussianHMM) (test_set : SinglesData) :
  NoDup (dict_keys models) ->
  exists probabilities guesses,
    recognize models test_set = Returned (probabilities, guesses) /\
    List.length probabilities = List.length test_set /\
    List.length guesses = List.length test_set /\
    forall i x, nth_error test_set i = Some x ->
      exists row guess,
        nth_error probabilities i = Some row /\
        nth_error guesses i = Some guess /\
        (forall w m, In (w, m) models -> GaussianHMM_score m x = Raised ->
                     dict_get row w = Some ninf) /\
        ((forall w m, In (w, m) models -> GaussianHMM_score m x = Raised) ->
         dict_keys row = dict_keys models /\
         (forall w v, In (w, v) row -> v = ninf) /\
         guess = None).
Proof.
  intros Hnd.
  exists (map (fun x => word_prob (recognize_item models x)) test_set),
         (map (fun x => best_guess (recognize_item models x)) test_set).
  split; [apply recognize_eq|]. rewrite !length_map.
  split; [reflexivity|]. split; [reflexivity|].
  intros i x Hx.
  exists (word_prob (recognize_item models x)), (best_guess (recognize_item models x)).
  rewrite !nth_error_map, Hx. split; [reflexivity|]. split; [reflexivity|].
  rewrite (recognize_item_row models x Hnd).
  split.
  - intros w m Hin Hraise. apply dict_get_in.
    + now rewrite scored_keys.
    + apply scored_in. exists m. split; [exact Hin|].
      unfold try_score. now rewrite Hraise.
  - intros Hall.
    assert (Hrow : forall w v, In (w, v) (scored models x) -> v = ninf).
    { intros w v Hin. apply scored_in in Hin. destruct Hin as (m & Hin & ->).
      unfold try_score. now rewrite (Hall w m Hin). }
    split; [apply scored_keys|]. split; [exact Hrow|].
    destruct (recognize_item_guess models x)
      as [(Hg & _)|(w & s & Hin & _ & _ & Hgt & _)]; [exact Hg|].
    rewrite (Hrow w s Hin) in Hgt. discriminate.
Qed.

(** C2 (amended): [recognize] returns a score table and a guess list
    with one entry per test item, in the order of the items, the row of
    an item holding its score against every model.  For every item
    whose row contains at least one finite score, the guess is a word
    of the row whose score is not NaN and is exceeded by no score of
    the row; whenever the first value of the row is not NaN, that score
    is Python's [max] of the row's values; and when the first value is
    NaN, Python's [max] of the row is NaN, which equals no score. *)
Theorem recognize_guess_is_argmax
    (models : dict GaussianHMM) (test_set : SinglesData) :
  NoDup (dict_keys models) ->
  exists probabilities guesses,
    recognize models test_set = Returned (probabilities, guesses) /\
    List.length probabilities = List.length test_set /\
    List.length guesses = List.length test_set /\
    forall i x, nth_error test_set i = Some x ->
      exists row guess,
        nth_error probabilities i = Some row /\
        nth_error guesses i = Some guess /\
        row = scored models x /\
        ((exists w v, In (w, v) row /\ is_finite v = true) ->
         exists w s,
           guess = Some w /\ dict_get row w = Some s /\
           is_nan s = false /\
           (forall w' s', In (w', s') row -> gtb s' s = false) /\
           (forall w1 s1 rest, row = (w1, s1) :: rest -> is_nan s1 = false ->
              pymax (dict_values row) = Some s) /\
           (forall w1 s1 rest, row = (w1, s1) :: rest -> is_nan s1 = true ->
              pymax (dict_values row) = Some nan /\ eqb s nan = false)).
Proof.
  intros Hnd.
  exists (map (fun x => word_prob (recognize_item models x)) test_set),
         (map (fun x => best_guess (recognize_item models x)) test_set).
  split; [apply recognize_eq|]. rewrite !length_map.
  split; [reflexivity|]. split; [reflexivity|].
  intros i x Hx.
  exists (word_prob (recognize_item models x)), (best_guess (recognize_item models x)).
  rewrite !nth_error_map, Hx. split; [reflexivity|]. split; [reflexivity|].
  rewrite (recognize_item_row models x Hnd). split; [reflexivity|].
  intros (wf & vf & Hinf & Hfin).
  destruct (recognize_item_guess models x)
    as [(_ & _ & Hall)|(w & s & Hin & Hg & Hbs & Hgt & Hall)].
  - specialize (Hall wf vf Hinf).
    rewrite (finite_above_ninf vf Hfin) in Hall. discriminate.
  - exists w, s. split; [exact Hg|]. split.
    + apply dict_get_in; [now rewrite scored_keys | exact Hin].
    + split; [now apply above_ninf_not_nan|]. split; [exact Hall|]. split.
      * intros w1 s1 rest Hrow Hnan.
        rewrite <- Hbs. exact (best_score_pymax models x w1 s1 rest Hrow Hnan).
      * intros w1 s1 rest Hrow Hnan. split; [|apply eqb_nan_r].
        rewrite Hrow. simpl dict_values. now apply pymax_nan_first.
Qed.

End RecognizerFacts.

(** ** The selectors *)

Section SelectorFacts.

Context {lib : HMMLib}.

Lemma in_candidates (self : ModelSelector) (k : Z) :
  In k (candidates self) <-> min_n_components self <= k <= max_n_components self.
Proof. unfold candidates. rewrite in_range. lia. Qed.

Lemma candidates_empty (self : ModelSelector) :
  max_n_components self < min_n_components self -> candidates self = [].
Proof. intros H. apply range_empty. lia. Qed.

Lemma SelectorBIC_search (self : ModelSelector) :
  SelectorBIC_select self
  = snd (search ltb (bic_candidate self) (candidates self) (inf, None)).
Proof.
  reflexivity.
Qed.

Lemma SelectorDIC_search (self : ModelSelector) :
  SelectorDIC_select self
  = snd (search gtb (dic_candidate self) (candidates self) (ninf, None)).
Proof.
  reflexivity.
Qed.

(** C9: [SelectorConstant.select] returns the model fit with
    [n_constant] states on the word's data, or [None] when that fit
    raises; the search range plays no part in the result. *)
Theorem SelectorConstant_select_spec (self : ModelSelector) :
  SelectorConstant_select self
  = match GaussianHMM_fit (n_constant self) (random_state self)
            (X self, lengths self) with
    | Returned m => Some m
    | Raised => None
    end
  /\ forall lo hi : Z,
      SelectorConstant_select (with_range self lo hi) = SelectorConstant_select self.
Proof.
  split; [reflexivity|]. intros lo hi. reflexivity.
Qed.

(** C3 (amended): for each candidate state count [k], [SelectorBIC]
    computes [p = k^2 + 2*k*d - 1] and [BIC = -2*L + p*ln(N)]; a
    candidate whose fit or score fails is skipped.  Whenever some
    candidate has a BIC below [+inf], the result is a candidate model
    with a BIC that no candidate undercuts; when no candidate has a BIC
    below [+inf] (in particular when every candidate fails) the result
    is [None]. *)
Theorem SelectorBIC_select_minimum (self : ModelSelector) :
  (forall k model logL,
      base_model self k = Some model ->
      GaussianHMM_score model (X self, lengths self) = Returned logL ->
      bic_candidate self k
      = Returned
          (add (mul (of_int (-2)) logL)
               (mul (of_int (k ^ 2 + 2 * k * n_features model - 1))
                    (np_log (Z.of_nat (List.length (X self))))),
           model)) /\
  (forall k st,
      (base_model self k = None \/
       exists model, base_model self k = Some model /\
                     GaussianHMM_score model (X self, lengths self) = Raised) ->
      bic_candidate self k = Raised /\ bic_step self st k = st) /\
  ((exists k v m, In k (candidates self) /\
                  bic_candidate self k = Returned (v, m) /\ ltb v inf = true) ->
   exists k v m,
     min_n_components self <= k <= max_n_components self /\
     bic_candidate self k = Returned (v, m) /\
     SelectorBIC_select self = Some m /\
     forall k' v' m', In k' (candidates self) ->
                      bic_candidate self k' = Returned (v', m') ->
                      ltb v' v = false) /\
  ((forall k v m, In k (candidates self) ->
                  bic_candidate self k = Returned (v, m) -> ltb v inf = false) ->
   SelectorBIC_select self = None).
Proof.
  split; [|split; [|split]].
  - intros k model logL Hfit Hscore. unfold bic_candidate.
    now rewrite Hfit, Hscore.
  - intros k st Hfail.
    assert (Hc : bic_candidate self k = Raised).
    { unfold bic_candidate.
      destruct Hfail as [Hfit|(model & Hfit & Hscore)]; rewrite Hfit;
        [reflexivity | now rewrite Hscore]. }
    split; [exact Hc|]. unfold bic_step. destruct st. now rewrite Hc.
  - intros (k0 & v0 & m0 & Hin0 & He0 & Hlt0).
    rewrite SelectorBIC_search.
    destruct (search_spec ltb (bic_candidate self) ltb_irrefl ltb_trans
                (candidates self) inf None)
      as [[_ Hall]|(k & v & m & Hin & He & Hs & _ & Hall)].
    + rewrite (Hall k0 v0 m0 Hin0 He0) in Hlt0. discriminate.
    + exists k, v, m. split; [now apply in_candidates|]. split; [exact He|].
      split; [now rewrite Hs | exact Hall].
  - intros Hnone. rewrite SelectorBIC_search.
    destruct (search_spec ltb (bic_candidate self) ltb_irrefl ltb_trans
                (candidates self) inf None)
      as [[Hs _]|(k & v & m & Hin & He & _ & Hlt & _)].
    + now rewrite Hs.
    + rewrite (Hnone k v m Hin He) in Hlt. discriminate.
Qed.


(** *** The discriminative criterion *)

(** The words scored against are the vocabulary without the target word. *)
Lemma in_aginst_words (self : ModelSelector) (w : string) :
  In w (aginst_words self) <->
  In w (dict_keys (words self)) /\ w <> this_word self.
Proof.
  unfold aginst_words. rewrite filter_In.
  destruct (String.eqb_spec w (this_word self)) as [->|Hne]; simpl; split;
    intros [H1 H2]; split; auto; try discriminate; congruence.
Qed.

Lemma filter_out_length (tw : string) (keys : list string) :
  NoDup keys -> In tw keys ->
  S (List.length (filter (fun w => negb (String.eqb w tw)) keys)) = List.length keys.
Proof.
  induction keys as [|k keys IH]; intros Hnd Hin; [destruct Hin|].
  inversion Hnd as [|? ? Hk Hnd']; subst. simpl.
  destruct (String.eqb_spec k tw) as [->|Hne]; simpl.
  - f_equal. clear IH Hin Hnd.
    induction keys as [|k keys IH]; [reflexivity|]. simpl.
    inversion Hnd' as [|? ? Hk' Hnd'']; subst.
    destruct (String.eqb_spec k tw) as [->|Hne]; simpl.
    + exfalso. apply Hk. now left.
    + f_equal. apply IH; [|exact Hnd'']. intros Hin. apply Hk. now right.
  - f_equal. apply IH; [exact Hnd'|]. destruct Hin as [Heq|Hin]; [congruence | exact Hin].
Qed.

(** There are [len(self.words) - 1] of them when the vocabulary is a
    dict that holds the target word. *)
Lemma aginst_words_length (self : ModelSelector) :
  NoDup (dict_keys (words self)) ->
  In (this_word self) (dict_keys (words self)) ->
  Z.of_nat (List.length (aginst_words self))
  = Z.of_nat (List.length (words self)) - 1.
Proof.
  intros Hnd Hin. unfold aginst_words.
  pose proof (filter_out_length (this_word self) _ Hnd Hin) as H.
  unfold dict_keys in H at 2. rewrite length_map in H. lia.
Qed.

Lemma sum_other_returns (self : ModelSelector) (model : GaussianHMM)
    (ws : list string) :
  forall (vs : list float) (acc : float),
    Forall2 (scores_word self model) ws vs ->
    sum_other self model ws acc = Returned (fold_left add vs acc).
Proof.
  induction ws as [|w ws IH]; intros vs acc HF; inversion HF; subst; [reflexivity|].
  match goal with H : scores_word _ _ _ _ |- _ => destruct H as (other & Hget & Hs) end.
  simpl. rewrite Hget, Hs. now apply IH.
Qed.

Lemma sum_other_raises (self : ModelSelector) (model : GaussianHMM)
    (ws : list string) :
  forall (acc : float) (w : string) (other : Xlengths),
    In w ws -> dict_get (hwords self) w = Some other ->
    GaussianHMM_score model other = Raised ->
    sum_other self model ws acc = Raised.
Proof.
  induction ws as [|w0 ws IH]; intros acc w other Hin Hget Hs; [destruct Hin|].
  simpl. destruct (dict_get (hwords self) w0) as [other0|] eqn:Hget0; [|reflexivity].
  destruct (GaussianHMM_score model other0) as [v|] eqn:Hs0; [|reflexivity].
  destruct Hin as [->|Hin]; [congruence|]. eapply IH; eauto.
Qed.

(** C4 (amended): for a vocabulary (a dict holding the target word) of
    at least two words, a candidate that fits and scores on its own
    data and on the data of every other word gets
    [DIC = L - sum(other log-likelihoods) / (number of other words)];
    a candidate for which the fit or any score call fails is skipped.
    Whenever some candidate has a DIC above [-inf], the result is a
    candidate model with a DIC that no candidate exceeds; when no
    candidate has a DIC above [-inf] the result is [None]. *)
Theorem SelectorDIC_select_maximum (self : ModelSelector) :
  NoDup (dict_keys (words self)) ->
  In (this_word self) (dict_keys (words self)) ->
  (2 <= List.length (words self))%nat ->
  (forall k model logL vs,
      base_model self k = Some model ->
      GaussianHMM_score model (X self, lengths self) = Returned logL ->
      Forall2 (scores_word self model) (aginst_words self) vs ->
      Z.of_nat (List.length vs) = Z.of_nat (List.length (words self)) - 1 /\
      dic_candidate self k
      = Returned
          (sub logL (div (fold_left add vs (S754_zero false))
                         (of_int (Z.of_nat (List.length vs)))),
           model)) /\
  (forall k st,
      (base_model self k = None \/
       exists model,
         base_model self k = Some model /\
         (GaussianHMM_score model (X self, lengths self) = Raised \/
          exists w other,
            In w (dict_keys (words self)) /\ w <> this_word self /\
            dict_get (hwords self) w = Some other /\
            GaussianHMM_score model other = Raised)) ->
      dic_candidate self k = Raised /\ dic_step self st k = st) /\
  ((exists k v m, In k (candidates self) /\
                  dic_candidate self k = Returned (v, m) /\ gtb v ninf = true) ->
   exists k v m,
     min_n_components self <= k <= max_n_components self /\
     dic_candidate self k = Returned (v, m) /\
     SelectorDIC_select self = Some m /\
     forall k' v' m', In k' (candidates self) ->
                      dic_candidate self k' = Returned (v', m') ->
                      gtb v' v = false) /\
  ((forall k v m, In k (candidates self) ->
                  dic_candidate self k = Returned (v, m) -> gtb v ninf = false) ->
   SelectorDIC_select self = None).
Proof.
  intros Hnd Hin Hlen.
  split; [|split; [|split]].
  - intros k model logL vs Hfit Hscore HF.
    assert (Hvs : Z.of_nat (List.length vs) = Z.of_nat (List.length (words self)) - 1).
    { rewrite <- (aginst_words_length self Hnd Hin).
      now rewrite (Forall2_length HF). }
    split; [exact Hvs|].
    unfold dic_candidate. rewrite Hfit, Hscore.
    rewrite (sum_other_returns self model _ vs _ HF).
    unfold truediv. rewrite <- Hvs.
    destruct (Z.eqb_spec (Z.of_nat (List.length vs)) 0) as [H0|_]; [lia | reflexivity].
  - intros k st Hfail.
    assert (Hc : dic_candidate self k = Raised).
    { unfold dic_candidate.
      destruct Hfail as [Hfit|(model & Hfit & Hfail)]; rewrite Hfit; [reflexivity|].
      destruct Hfail as [Hscore|(w & other & Hw & Hne & Hget & Hscore)].
      - now rewrite Hscore.
      - destruct (GaussianHMM_score model (X self, lengths self)); [|reflexivity].
        rewrite (sum_other_raises self model _ _ w other); auto.
        apply in_aginst_words. now split. }
    split; [exact Hc|]. unfold dic_step. destruct st. now rewrite Hc.
  - intros (k0 & v0 & m0 & Hin0 & He0 & Hgt0).
    rewrite SelectorDIC_search.
    destruct (search_spec gtb (dic_candidate self) gtb_irrefl gtb_trans
                (candidates self) ninf None)
      as [[_ Hall]|(k & v & m & Hink & He & Hs & _ & Hall)].
    + rewrite (Hall k0 v0 m0 Hin0 He0) in Hgt0. discriminate.
    + exists k, v, m. split; [now apply in_candidates|]. split; [exact He|].
      split; [now rewrite Hs | exact Hall].
  - intros Hnone. rewrite SelectorDIC_search.
    destruct (search_spec gtb (dic_candidate self) gtb_irrefl gtb_trans
                (candidates self) ninf None)
      as [[Hs _]|(k & v & m & Hink & He & _ & Hgt & _)].
    + now rewrite Hs.
    + rewrite (Hnone k v m Hink He) in Hgt. discriminate.
Qed.


(** *** Cross-validation *)

Lemma cv_candidate_multi (self : ModelSelector) (k : Z) (model : option GaussianHMM) :
  (1 < List.length (sequences self))%nat ->
  cv_candidate self k model
  = match cv_folds self k (cv_splits self) (of_int 0) 0 model with
    | (Raised, model') => (Raised, model')
    | (Returned (score, iter_num), model') =>
        match truediv score iter_num with
        | Raised => (Raised, model')
        | Returned mean => (Returned (mean, None), model')
        end
    end.
Proof.
  intros Hlen. unfold cv_candidate.
  destruct (Nat.leb_spec (List.length (sequences self)) 1) as [H|_]; [lia | reflexivity].
Qed.

(** With several examples the candidate never brings a model of its
    own to the comparison: the model kept is fit afterwards. *)
Lemma cv_candidate_multi_last (self : ModelSelector) (k : Z)
    (model model' : option GaussianHMM) (score : float) (last : option GaussianHMM) :
  (1 < List.length (sequences self))%nat ->
  cv_candidate self k model = (Returned (score, last), model') ->
  last = None.
Proof.
  intros Hlen. rewrite (cv_candidate_multi self k model Hlen).
  destruct (cv_folds self k (cv_splits self) (of_int 0) 0 model) as [[[sc n]|] mv];
    [|discriminate].
  destruct (truediv sc n); [|discriminate].
  intros H. now injection H as _ <- _.
Qed.

Lemma cv_step_multi (self : ModelSelector) (st : cv_state) (k : Z) :
  (1 < List.length (sequences self))%nat ->
  cv_best_model (cv_step self st k) = cv_best_model st \/
  exists m, GaussianHMM_fit k (random_state self) (X self, lengths self) = Returned m /\
            cv_best_model (cv_step self st k) = Some m.
Proof.
  intros Hlen. unfold cv_step.
  destruct (cv_candidate self k (cv_model st)) as [[[score last]|] mv] eqn:Ec;
    [|now left].
  rewrite (cv_candidate_multi_last self k _ _ _ _ Hlen Ec).
  destruct (ltb (cv_best_score st) score); [|now left].
  destruct (GaussianHMM_fit k (random_state self) (X self, lengths self)) as [m|];
    [right; now exists m | now left].
Qed.

(** C5: with more than one example, a model returned by
    [SelectorCV.select] is the fit of some candidate state count on the
    word's full data [(self.X, self.lengths)]. *)
Theorem SelectorCV_returns_full_data_fit (self : ModelSelector) (m : GaussianHMM) :
  (1 < List.length (sequences self))%nat ->
  SelectorCV_select self = Some m ->
  exists k,
    min_n_components self <= k <= max_n_components self /\
    GaussianHMM_fit k (random_state self) (X self, lengths self) = Returned m.
Proof.
  intros Hlen. unfold SelectorCV_select.
  pose (P := fun st : cv_state =>
               forall m, cv_best_model st = Some m ->
                 exists k, min_n_components self <= k <= max_n_components self /\
                   GaussianHMM_fit k (random_state self) (X self, lengths self)
                   = Returned m).
  assert (HP : P (fold_left (cv_step self) (candidates self) cv_init)).
  { apply fold_left_invariant.
    - intros m0 H0. discriminate.
    - intros st k Hk Hst m0 Hm0.
      destruct (cv_step_multi self st k Hlen) as [Heq|(m1 & Hfit & Heq)];
        rewrite Heq in Hm0.
      + now apply Hst.
      + injection Hm0 as <-. exists k. split; [now apply in_candidates | exact Hfit]. }
  apply HP.
Qed.

(** With a single example the local variable [model] is never bound:
    every candidate raises at [model.score] (or already at the fit). *)
Lemma cv_step_single (self : ModelSelector) (st : cv_state) (k : Z) :
  (List.length (sequences self) <= 1)%nat ->
  cv_model st = None ->
  cv_step self st k = st.
Proof.
  intros Hlen Hm. unfold cv_step, cv_candidate. rewrite Hm.
  destruct (Nat.leb_spec (List.length (sequences self)) 1) as [_|H]; [|lia].
  destruct st as [bs bm mv]. simpl in *. subst mv.
  destruct (GaussianHMM_fit k (random_state self) (X self, lengths self)); reflexivity.
Qed.

(** C6 (what the code does): for a word with at most one example
    sequence, [SelectorCV.select] returns [None], whatever the fits and
    scores do. *)
Theorem SelectorCV_single_example_None (self : ModelSelector) :
  (List.length (sequences self) <= 1)%nat ->
  SelectorCV_select self = None.
Proof.
  intros Hlen. unfold SelectorCV_select.
  assert (H : fold_left (cv_step self) (candidates self) cv_init = cv_init).
  { apply (fold_left_invariant (fun st => st = cv_init)); [reflexivity|].
    intros st k _ ->. now apply cv_step_single. }
  now rewrite H.
Qed.

Lemma cv_folds_raises (self : ModelSelector) (k : Z) (folds : list (list nat * list nat)) :
  forall score n model,
    (exists fold, In fold folds /\ fold_fails self k fold = true) ->
    fst (cv_folds self k folds score n model) = Raised.
Proof.
  induction folds as [|[tr te] folds IH]; intros score n model (fold & Hin & Hf);
    [destruct Hin|].
  simpl.
  destruct (GaussianHMM_fit k (random_state self) (combine_sequences tr (sequences self)))
    as [m|] eqn:Hfit; [|reflexivity].
  destruct (GaussianHMM_score m (combine_sequences te (sequences self)))
    as [v|] eqn:Hs; [|reflexivity].
  destruct Hin as [<-|Hin].
  - unfold fold_fails, fold_score in Hf. simpl in Hf. rewrite Hfit, Hs in Hf.
    discriminate.
  - apply IH. now exists fold.
Qed.

Lemma cv_folds_returns (self : ModelSelector) (k : Z) (folds : list (list nat * list nat)) :
  forall score n model,
    (forall fold, In fold folds -> fold_fails self k fold = false) ->
    fst (cv_folds self k folds score n model)
    = Returned (fold_left add (map (fold_value self k) folds) score,
                n + Z.of_nat (List.length folds)).
Proof.
  induction folds as [|[tr te] folds IH]; intros score n model Hok.
  - simpl. now rewrite Z.add_0_r.
  - pose proof (Hok (tr, te) (or_introl eq_refl)) as H1.
    unfold fold_fails in H1.
    cbn [cv_folds map fold_left List.length]. unfold fold_value.
    unfold fold_score in *. cbn [fst snd] in *.
    destruct (GaussianHMM_fit k (random_state self) (combine_sequences tr (sequences self)))
      as [m|]; [|discriminate].
    destruct (GaussianHMM_score m (combine_sequences te (sequences self)))
      as [v|]; [|discriminate].
    rewrite IH.
    + f_equal. f_equal. lia.
    + intros fold Hin. apply Hok. now right.
Qed.

(** C7 (amended): with several examples, a candidate one of whose
    folds fails to fit or to score is skipped as a whole: it gets no
    score, and the best score and best model are left as they were.
    A candidate all of whose folds succeed gets the average of its
    held-out log-likelihoods. *)
Theorem SelectorCV_failed_fold_skips_candidate
    (self : ModelSelector) (st : cv_state) (k : Z) :
  (1 < List.length (sequences self))%nat ->
  ((exists fold, In fold (cv_splits self) /\ fold_fails self k fold = true) ->
   fst (cv_candidate self k (cv_model st)) = Raised /\
   cv_best_score (cv_step self st k) = cv_best_score st /\
   cv_best_model (cv_step self st k) = cv_best_model st) /\
  ((forall fold, In fold (cv_splits self) -> fold_fails self k fold = false) ->
   cv_splits self <> [] ->
   fst (cv_candidate self k (cv_model st))
   = Returned
       (div (fold_left add (map (fold_value self k) (cv_splits self)) (of_int 0))
            (of_int (Z.of_nat (List.length (cv_splits self)))),
        None)).
Proof.
  intros Hlen. split.
  - intros Hfail.
    assert (Hc : fst (cv_candidate self k (cv_model st)) = Raised).
    { rewrite (cv_candidate_multi self k _ Hlen).
      pose proof (cv_folds_raises self k _ (of_int 0) 0 (cv_model st) Hfail) as Hr.
      destruct (cv_folds self k (cv_splits self) (of_int 0) 0 (cv_model st))
        as [[[sc n]|] mv]; [discriminate | reflexivity]. }
    split; [exact Hc|]. unfold cv_step.
    destruct (cv_candidate self k (cv_model st)) as [[[score last]|] mv];
      [discriminate | split; reflexivity].
  - intros Hok Hne.
    rewrite (cv_candidate_multi self k _ Hlen).
    pose proof (cv_folds_returns self k _ (of_int 0) 0 (cv_model st) Hok) as Hr.
    destruct (cv_folds self k (cv_splits self) (of_int 0) 0 (cv_model st))
      as [[[sc n]|] mv]; [|discriminate].
    simpl in Hr. injection Hr as -> ->.
    unfold truediv.
    destruct (Z.eqb_spec (Z.of_nat (List.length (cv_splits self))) 0) as [H0|_].
    + destruct (cv_splits self); [contradiction | simpl in H0; lia].
    + reflexivity.
Qed.


(** *** Construction *)

(** C8 (amended): at construction, a target word missing from either
    lookup is detected at once ([KeyError]), and nothing else is: the
    search range is stored as given, whatever its bounds.  A selector
    whose range is empty ([max < min]) raises nowhere later either:
    the three searching selectors return [None]. *)
Theorem init_checks_the_word_only
    (all_word_sequences : dict (list sequence)) (all_word_Xlengths : dict Xlengths)
    (word : string) (n lo hi seed : Z) (vb : bool) :
  (init all_word_sequences all_word_Xlengths word n lo hi seed vb = Raised <->
   dict_get all_word_sequences word = None \/
   dict_get all_word_Xlengths word = None) /\
  (forall self,
      init all_word_sequences all_word_Xlengths word n lo hi seed vb = Returned self ->
      min_n_components self = lo /\ max_n_components self = hi /\
      (hi < lo ->
       SelectorBIC_select self = None /\
       SelectorDIC_select self = None /\
       SelectorCV_select self = None)).
Proof.
  unfold init. split.
  - destruct (dict_get all_word_sequences word) as [seqs|].
    + destruct (dict_get all_word_Xlengths word) as [[x l]|].
      * split; [discriminate | intros [H|H]; discriminate].
      * split; [now right | reflexivity].
    + split; [now left | reflexivity].
  - intros self Hinit.
    destruct (dict_get all_word_sequences word) as [seqs|]; [|discriminate].
    destruct (dict_get all_word_Xlengths word) as [[x l]|]; [|discriminate].
    injection Hinit as <-. split; [reflexivity|]. split; [reflexivity|].
    intros Hrange.
    unfold SelectorBIC_select, SelectorDIC_select, SelectorCV_select.
    rewrite candidates_empty by exact Hrange. repeat split; reflexivity.
Qed.

End SelectorFacts.

(** C10: in [SelectorCV.select], [best_score] is assigned before the
    full-data fit is attempted.  When a candidate's cross-validation
    score is above the current best and its full-data fit raises,
    [best_score] becomes that score while [best_model] stays as it was,
    and a later candidate whose score is not above it leaves [best_model]
    untouched.  As a result the model returned can have a lower
    cross-validation score than another candidate whose full-data fit
    succeeds: in the worked example the model of two states (score 1.0)
    is returned although four states score 5.0. *)
Theorem SelectorCV_best_score_not_atomic :
  (forall (lib : HMMLib) (self : ModelSelector) (st : cv_state) (k : Z)
          (score : float) (model' : option GaussianHMM),
      cv_candidate self k (cv_model st) = (Returned (score, None), model') ->
      ltb (cv_best_score st) score = true ->
      GaussianHMM_fit k (random_state self) (X self, lengths self) = Raised ->
      cv_step self st k
      = {| cv_best_score := score; cv_best_model := cv_best_model st;
           cv_model := model' |} /\
      forall k' score' last' model'',
        cv_candidate self k' model' = (Returned (score', last'), model'') ->
        ltb score score' = false ->
        cv_best_model (cv_step self (cv_step self st k) k') = cv_best_model st) /\
  (exists (self : @ModelSelector (Toy.lib Toy.full_fit_fails_at_3 Toy.score_by_k))
          (m2 m4 : Toy.model) (s2 s4 : float),
      candidates self = [2; 3; 4] /\
      SelectorCV_select self = Some m2 /\
      GaussianHMM_fit 2 (random_state self) (X self, lengths self) = Returned m2 /\
      fst (cv_candidate self 2 None) = Returned (s2, None) /\
      GaussianHMM_fit 4 (random_state self) (X self, lengths self) = Returned m4 /\
      fst (cv_candidate self 4 None) = Returned (s4, None) /\
      ltb s2 s4 = true).
Proof.
  split.
  - intros lib self st k score model' Hc Hlt Hfit.
    assert (Hstep : cv_step self st k
                    = {| cv_best_score := score; cv_best_model := cv_best_model st;
                         cv_model := model' |}).
    { unfold cv_step. now rewrite Hc, Hlt, Hfit. }
    split; [exact Hstep|].
    intros k' score' last' model'' Hc' Hnlt.
    rewrite Hstep. unfold cv_step. simpl. now rewrite Hc', Hnlt.
  - exists (Toy.book Toy.full_fit_fails_at_3 Toy.score_by_k 2 4).
    exists {| Toy.tm_k := 2; Toy.tm_train := ([1; 2], [1; 1]) |},
           {| Toy.tm_k := 4; Toy.tm_train := ([1; 2], [1; 1]) |},
           Toy.one, Toy.five.
    repeat split; vm_compute; reflexivity.
Qed.

(** ** Worked examples *)

Ltac distinct_keys :=
  repeat (constructor; [simpl; intuition discriminate|]); constructor.

Lemma recognize_tolerates_score_failures_witness :
  NoDup (dict_keys Toy.failing_models) /\
  exists probabilities guesses,
    recognize (lib := Toy.recognizer_lib) Toy.failing_models [Toy.test_item; Toy.test_item]
    = Returned (probabilities, guesses) /\
    List.length probabilities = 2%nat /\ List.length guesses = 2%nat.
Proof.
  assert (Hnd : NoDup (dict_keys Toy.failing_models)) by distinct_keys.
  split; [exact Hnd|].
  destruct (recognize_tolerates_score_failures (lib := Toy.recognizer_lib)
              Toy.failing_models [Toy.test_item; Toy.test_item] Hnd)
    as (probabilities & guesses & Hr & Hp & Hg & _).
  exists probabilities, guesses. split; [exact Hr|]. split; [exact Hp | exact Hg].
Defined.

(** C2, as stated, fails on a row that starts with NaN: the models of A,
    B and C score NaN, 2.0 and (raising) [-inf] on the item; the guess is
    B with the finite score 2.0, Python's [max] of the row's values is
    NaN, and [2.0 == nan] is false. *)
Lemma recognize_guess_is_not_pymax :
  recognize (lib := Toy.recognizer_lib) Toy.mixed_models [Toy.test_item]
  = Returned ([[("A"%string, nan); ("B"%string, of_int 2); ("C"%string, ninf)]],
              [Some "B"%string]) /\
  is_finite (of_int 2) = true /\
  pymax [nan; of_int 2; ninf] = Some nan /\
  eqb (of_int 2) nan = false.
Proof.
  repeat split; vm_compute; reflexivity.
Qed.

Lemma recognize_guess_is_argmax_witness :
  NoDup (dict_keys Toy.nan_later_models) /\
  exists w s,
    dict_get (scored (lib := Toy.recognizer_lib) Toy.nan_later_models Toy.test_item) w
    = Some s /\
    is_nan s = false /\
    pymax (dict_values
             (scored (lib := Toy.recognizer_lib) Toy.nan_later_models Toy.test_item))
    = Some s.
Proof.
  assert (Hnd : NoDup (dict_keys Toy.nan_later_models)) by distinct_keys.
  split; [exact Hnd|].
  destruct (recognize_guess_is_argmax (lib := Toy.recognizer_lib)
              Toy.nan_later_models [Toy.test_item] Hnd)
    as (probabilities & guesses & _ & _ & _ & Hitems).
  destruct (Hitems 0%nat Toy.test_item eq_refl)
    as (row & guess & _ & _ & Hrow & Hguess).
  destruct Hguess as (w & s & _ & Hget & Hnum & _ & Hfirst & _).
  { exists "B"%string, (of_int 2). rewrite Hrow.
    split; [simpl; auto | reflexivity]. }
  exists w, s. rewrite <- Hrow. split; [exact Hget|]. split; [exact Hnum|].
  apply (Hfirst "B"%string (of_int 2)
           [("A"%string, nan); ("C"%string, ninf)]); [|reflexivity].
  rewrite Hrow. vm_compute. reflexivity.
Defined.

(** C3, as stated, fails when the only log-likelihood is [-inf]: the
    single candidate (two states) fits and scores, its BIC is [+inf],
    which is not below the initial [+inf], and the result is [None]. *)
Lemma SelectorBIC_select_misses_inf :
  candidates Toy.ninf_book = [2] /\
  base_model Toy.ninf_book 2 = Some (Toy.full 2) /\
  GaussianHMM_score (HMMLib := Toy.ninf_lib) (Toy.full 2) ([1; 2], [1; 1])
  = Returned ninf /\
  bic_candidate Toy.ninf_book 2 = Returned (inf, Toy.full 2) /\
  SelectorBIC_select Toy.ninf_book = None.
Proof.
  repeat split; vm_compute; reflexivity.
Qed.

Lemma SelectorBIC_select_minimum_witness :
  (exists k v m,
      min_n_components Toy.plain_book <= k <= max_n_components Toy.plain_book /\
      bic_candidate Toy.plain_book k = Returned (v, m) /\
      SelectorBIC_select Toy.plain_book = Some m /\
      forall k' v' m', In k' (candidates Toy.plain_book) ->
                       bic_candidate Toy.plain_book k' = Returned (v', m') ->
                       ltb v' v = false) /\
  SelectorBIC_select Toy.ninf_book = None.
Proof.
  split.
  - apply (proj1 (proj2 (proj2 (SelectorBIC_select_minimum Toy.plain_book)))).
    exists 2. eexists. eexists.
    split; [simpl; auto|]. split; vm_compute; reflexivity.
  - apply (proj2 (proj2 (proj2 (SelectorBIC_select_minimum Toy.ninf_book)))).
    intros k v m Hin He. destruct Hin as [<-|[]].
    vm_compute in He. injection He as <- _. reflexivity.
Defined.

(** C4, as stated, fails when the own log-likelihood is [-inf]: with
    the two-word vocabulary the single candidate fits and scores on both
    words, its DIC is [-inf - 5.0/1 = -inf], which is not above the
    initial [-inf], and the result is [None]. *)
Lemma SelectorDIC_select_misses_ninf :
  List.length (words Toy.ninf_on_book) = 2%nat /\
  candidates Toy.ninf_on_book = [2] /\
  base_model Toy.ninf_on_book 2 = Some (Toy.full 2) /\
  GaussianHMM_score (HMMLib := Toy.ninf_on_book_lib) (Toy.full 2) ([1; 2], [1; 1])
  = Returned ninf /\
  GaussianHMM_score (HMMLib := Toy.ninf_on_book_lib) (Toy.full 2) ([7; 8], [2])
  = Returned Toy.five /\
  dic_candidate Toy.ninf_on_book 2 = Returned (ninf, Toy.full 2) /\
  SelectorDIC_select Toy.ninf_on_book = None.
Proof.
  repeat split; vm_compute; reflexivity.
Qed.

Lemma SelectorDIC_select_maximum_witness :
  NoDup (dict_keys (words Toy.plain_book)) /\
  In (this_word Toy.plain_book) (dict_keys (words Toy.plain_book)) /\
  (2 <= List.length (words Toy.plain_book))%nat /\
  exists k v m,
    min_n_components Toy.plain_book <= k <= max_n_components Toy.plain_book /\
    dic_candidate Toy.plain_book k = Returned (v, m) /\
    SelectorDIC_select Toy.plain_book = Some m /\
    forall k' v' m', In k' (candidates Toy.plain_book) ->
                     dic_candidate Toy.plain_book k' = Returned (v', m') ->
                     gtb v' v = false.
Proof.
  assert (Hnd : NoDup (dict_keys (words Toy.plain_book))) by distinct_keys.
  assert (Hin : In (this_word Toy.plain_book) (dict_keys (words Toy.plain_book)))
    by (simpl; auto).
  assert (Hlen : (2 <= List.length (words Toy.plain_book))%nat) by (simpl; lia).
  split; [exact Hnd|]. split; [exact Hin|]. split; [exact Hlen|].
  apply (proj1 (proj2 (proj2 (SelectorDIC_select_maximum Toy.plain_book Hnd Hin Hlen)))).
  exists 2. eexists. eexists.
  split; [simpl; auto|]. split; vm_compute; reflexivity.
Defined.

Lemma SelectorCV_returns_full_data_fit_witness :
  (1 < List.length (sequences Toy.plain_book))%nat /\
  SelectorCV_select Toy.plain_book = Some (Toy.full 3) /\
  exists k,
    min_n_components Toy.plain_book <= k <= max_n_components Toy.plain_book /\
    GaussianHMM_fit (HMMLib := Toy.plain_lib) k (random_state Toy.plain_book)
      (X Toy.plain_book, lengths Toy.plain_book)
    = Returned (Toy.full 3).
Proof.
  assert (Hlen : (1 < List.length (sequences Toy.plain_book))%nat) by (simpl; lia).
  assert (Hsel : SelectorCV_select Toy.plain_book = Some (Toy.full 3))
    by (vm_compute; reflexivity).
  split; [exact Hlen|]. split; [exact Hsel|].
  exact (SelectorCV_returns_full_data_fit Toy.plain_book (Toy.full 3) Hlen Hsel).
Defined.

Lemma SelectorCV_single_example_None_witness :
  (List.length (sequences Toy.plain_vegetable) <= 1)%nat /\
  SelectorCV_select Toy.plain_vegetable = None.
Proof.
  assert (Hlen : (List.length (sequences Toy.plain_vegetable) <= 1)%nat) by (simpl; lia).
  split; [exact Hlen|].
  exact (SelectorCV_single_example_None Toy.plain_vegetable Hlen).
Defined.

(** C7, as stated, fails when one fold of two fails: the fit on the
    second example alone raises, the other fold fits and scores 1.0, so
    the score worded by the specification is 1.0 and the full-data fit
    would succeed; the code gives the candidate no score and returns
    [None]. *)
Lemma SelectorCV_one_failed_fold_drops_candidate :
  cv_splits Toy.partial_book = [([1%nat], [0%nat]); ([0%nat], [1%nat])] /\
  candidates Toy.partial_book = [2] /\
  fold_score Toy.partial_book 2 ([1%nat], [0%nat]) = Raised /\
  fold_score Toy.partial_book 2 ([0%nat], [1%nat]) = Returned Toy.one /\
  spec_cv_score Toy.partial_book 2 = Some Toy.one /\
  GaussianHMM_fit (HMMLib := Toy.partial_lib) 2 14 ([1; 2], [1; 1])
  = Returned (Toy.full 2) /\
  fst (cv_candidate Toy.partial_book 2 None) = Raised /\
  SelectorCV_select Toy.partial_book = None.
Proof.
  repeat split; vm_compute; reflexivity.
Qed.

Lemma SelectorCV_failed_fold_skips_candidate_witness :
  (1 < List.length (sequences Toy.partial_book))%nat /\
  (fst (cv_candidate Toy.partial_book 2 (cv_model cv_init)) = Raised /\
   cv_best_score (cv_step Toy.partial_book cv_init 2) = ninf /\
   cv_best_model (cv_step Toy.partial_book cv_init 2) = None) /\
  fst (cv_candidate Toy.plain_book 2 (cv_model cv_init))
  = Returned
      (div (fold_left add (map (fold_value Toy.plain_book 2) (cv_splits Toy.plain_book))
              (of_int 0))
           (of_int (Z.of_nat (List.length (cv_splits Toy.plain_book)))),
       None).
Proof.
  assert (Hlen : (1 < List.length (sequences Toy.partial_book))%nat) by (simpl; lia).
  assert (Hlen' : (1 < List.length (sequences Toy.plain_book))%nat) by (simpl; lia).
  split; [exact Hlen|]. split.
  - apply (proj1 (SelectorCV_failed_fold_skips_candidate Toy.partial_book cv_init 2 Hlen)).
    exists ([1%nat], [0%nat]). split; [vm_compute; auto | vm_compute; reflexivity].
  - apply (proj2 (SelectorCV_failed_fold_skips_candidate Toy.plain_book cv_init 2 Hlen')).
    + intros fold Hin. vm_compute in Hin.
      destruct Hin as [<-|[<-|[]]]; vm_compute; reflexivity.
    + vm_compute. discriminate.
Defined.

(** C8, as stated, fails on the search range: a range with [min > max]
    and a range with [min < 1] are both accepted at construction. *)
Lemma init_accepts_any_range :
  init (lib := Toy.plain_lib) Toy.all_sequences Toy.all_Xlengths "BOOK" 3 5 2 14 false
  = Returned Toy.backwards_book /\
  init (lib := Toy.plain_lib) Toy.all_sequences Toy.all_Xlengths "BOOK" 3 0 3 14 false
  = Returned Toy.zero_book /\
  SelectorBIC_select Toy.backwards_book = None.
Proof.
  repeat split; vm_compute; reflexivity.
Qed.

Lemma init_checks_the_word_only_witness :
  init (lib := Toy.plain_lib) Toy.all_sequences Toy.all_Xlengths "BOOK" 3 5 2 14 false
  = Returned Toy.backwards_book /\
  2 < 5 /\
  SelectorBIC_select Toy.backwards_book = None /\
  SelectorDIC_select Toy.backwards_book = None /\
  SelectorCV_select Toy.backwards_book = None.
Proof.
  assert (Hinit : init (lib := Toy.plain_lib) Toy.all_sequences Toy.all_Xlengths
                    "BOOK" 3 5 2 14 false = Returned Toy.backwards_book)
    by reflexivity.
  assert (Hrange : 2 < 5) by lia.
  split; [exact Hinit|]. split; [exact Hrange|].
  exact (proj2 (proj2 (proj2 (init_checks_the_word_only (lib := Toy.plain_lib)
                                Toy.all_sequences Toy.all_Xlengths "BOOK" 3 5 2 14 false)
                             Toy.backwards_book Hinit)) Hrange).
Defined.

Lemma SelectorCV_best_score_not_atomic_witness :
  cv_step Toy.refit_book (cv_step Toy.refit_book cv_init 2) 3
  = @Build_cv_state Toy.refit_lib Toy.ten
      (cv_best_model (cv_step Toy.refit_book cv_init 2))
      (Some {| Toy.tm_k := 3; Toy.tm_train := ([1], [1]) |}).
Proof.
  apply (proj1 SelectorCV_best_score_not_atomic Toy.refit_lib Toy.refit_book
           (cv_step Toy.refit_book cv_init 2) 3 Toy.ten
           (Some {| Toy.tm_k := 3; Toy.tm_train := ([1], [1]) |})).
  - vm_compute. reflexivity.
  - vm_compute. reflexivity.
  - vm_compute. reflexivity.
Defined.

(** ** More on float comparison *)

Section FloatOrderMore.

Lemma ltb_not_nan (x y : float) :
  ltb x y = true -> is_nan x = false /\ is_nan y = false.
Proof.
  destruct x, y; intros H; try discriminate; split; reflexivity.
Qed.

(** Nothing is below [-inf]. *)
Lemma ltb_ninf_r (x : float) : ltb x ninf = false.
Proof.
  destruct x as [s|s| |s m e]; try reflexivity; destruct s; reflexivity.
Qed.

(** Nothing is above [+inf]. *)
Lemma ltb_inf_l (x : float) : ltb inf x = false.
Proof.
  destruct x as [s|s| |s m e]; try reflexivity; destruct s; reflexivity.
Qed.

Lemma not_ltb_finite (s1 s2 : bool) (m1 m2 : positive) (e1 e2 : Z) :
  ltb (S754_finite s1 m1 e1) (S754_finite s2 m2 e2) = false ->
  ~ match s1, s2 with
    | true, false => True
    | false, true => False
    | false, false => e1 < e2 \/ (e1 = e2 /\ (m1 < m2)%positive)
    | true, true => e2 < e1 \/ (e1 = e2 /\ (m2 < m1)%positive)
    end.
Proof.
  intros H Hc. apply ltb_finite_spec in Hc. rewrite Hc in H. discriminate.
Qed.

(** [x < y] and not [z < y], with [z] a number, give [x < z]. *)
Lemma ltb_below_all (x y z : float) :
  ltb x y = true -> ltb z y = false -> is_nan z = false -> ltb x z = true.
Proof.
  destruct x as [sx|sx| |sx mx ex], y as [sy|sy| |sy my ey],
           z as [sz|sz| |sz mz ez];
    try (intros H1 H2 _; apply ltb_finite_spec in H1; apply not_ltb_finite in H2;
         apply ltb_finite_spec; destruct sx, sy, sz; tauto || lia);
    try discriminate;
    try (destruct sx; discriminate); try (destruct sy; discriminate);
    try (destruct sx, sy; discriminate);
    try (destruct sy, sz; discriminate);
    try (destruct sx, sz; discriminate);
    try (destruct sx, sy, sz; (discriminate || reflexivity)).
Qed.

(** [y < x] and not [y < z], with [z] a number, give [z < x]. *)
Lemma ltb_above_all (x y z : float) :
  ltb y x = true -> ltb y z = false -> is_nan z = false -> ltb z x = true.
Proof.
  destruct x as [sx|sx| |sx mx ex], y as [sy|sy| |sy my ey],
           z as [sz|sz| |sz mz ez];
    try (intros H1 H2 _; apply ltb_finite_spec in H1; apply not_ltb_finite in H2;
         apply ltb_finite_spec; destruct sx, sy, sz; tauto || lia);
    try discriminate;
    try (destruct sx; discriminate); try (destruct sy; discriminate);
    try (destruct sx, sy; discriminate);
    try (destruct sy, sz; discriminate);
    try (destruct sx, sz; discriminate);
    try (destruct sx, sy, sz; (discriminate || reflexivity)).
Qed.

End FloatOrderMore.

(** ** Ties in the search loop *)

Section SearchTies.

Context {C M : Type}.
Variable better : float -> float -> bool.
Variable eval : C -> outcome (float * M).
Hypothesis better_trans :
  forall x y z, better x y = true -> better y z = true -> better x z = true.
Hypothesis better_all :
  forall x y z, better x y = true -> better z y = false -> is_nan z = false ->
                better x z = true.

(** When the loop ends on a candidate, that candidate is strictly better
    than every earlier candidate whose value is a number, and no later
    candidate is strictly better than it: the first of equals is kept. *)
Lemma search_first (cands : list C) :
  forall (best : float) (kept : option M),
    (search better eval cands (best, kept) = (best, kept) /\
     forall c v m, In c cands -> eval c = Returned (v, m) -> better v best = false)
    \/
    (exists pre c post v m,
        cands = pre ++ c :: post /\ eval c = Returned (v, m) /\
        search better eval cands (best, kept) = (v, Some m) /\
        better v best = true /\
        (forall c' v' m', In c' pre -> eval c' = Returned (v', m') ->
                          is_nan v' = false -> better v v' = true) /\
        (forall c' v' m', In c' post -> eval c' = Returned (v', m') ->
                          better v' v = false)).
Proof.
  induction cands as [|c0 cands IH]; intros best kept.
  - left. split; [reflexivity | intros ? ? ? []].
  - unfold search. simpl. fold (search better eval cands).
    destruct (eval c0) as [[v0 m0]|] eqn:E0.
    + destruct (better v0 best) eqn:Hb.
      * right.
        destruct (IH v0 (Some m0))
          as [[Hs Hall]|(pre & c & post & v & m & Hc & He & Hs & Hbv & Hpre & Hpost)].
        -- exists [], c0, cands, v0, m0.
           split; [reflexivity|]. split; [exact E0|]. split; [exact Hs|].
           split; [exact Hb|]. split; [intros ? ? ? []|exact Hall].
        -- exists (c0 :: pre), c, post, v, m.
           split; [now rewrite Hc|]. split; [exact He|]. split; [exact Hs|].
           split; [eapply better_trans; eauto|]. split; [|exact Hpost].
           intros c' v' m' [<-|Hin] He' Hnan; [|eapply Hpre; eauto].
           rewrite E0 in He'. injection He' as <- <-. exact Hbv.
      * destruct (IH best kept)
          as [[Hs Hall]|(pre & c & post & v & m & Hc & He & Hs & Hbv & Hpre & Hpost)].
        -- left. split; [exact Hs|].
           intros c' v' m' [<-|Hin] He'; [|eapply Hall; eauto].
           rewrite E0 in He'. injection He' as <- <-. exact Hb.
        -- right. exists (c0 :: pre), c, post, v, m.
           split; [now rewrite Hc|]. split; [exact He|]. split; [exact Hs|].
           split; [exact Hbv|]. split; [|exact Hpost].
           intros c' v' m' [<-|Hin] He' Hnan; [|eapply Hpre; eauto].
           rewrite E0 in He'. injection He' as <- <-.
           eapply better_all; eauto.
    + destruct (IH best kept)
        as [[Hs Hall]|(pre & c & post & v & m & Hc & He & Hs & Hbv & Hpre & Hpost)].
      * left. split; [exact Hs|].
        intros c' v' m' [<-|Hin] He'; [congruence | eapply Hall; eauto].
      * right. exists (c0 :: pre), c, post, v, m.
        split; [now rewrite Hc|]. split; [exact He|]. split; [exact Hs|].
        split; [exact Hbv|]. split; [|exact Hpost].
        intros c' v' m' [<-|Hin] He' Hnan; [congruence | eapply Hpre; eauto].
Qed.

End SearchTies.

(** ** Ranges are in ascending order *)

Lemma range_nth (lo hi : Z) (i : nat) (x : Z) :
  nth_error (range lo hi) i = Some x -> x = lo + Z.of_nat i.
Proof.
  unfold range. rewrite nth_error_map.
  destruct (nth_error (seq 0 (Z.to_nat (hi - lo))) i) as [j|] eqn:Hj; [|discriminate].
  simpl. intros H. injection H as <-.
  assert (Hlt : (i < List.length (seq 0 (Z.to_nat (hi - lo))))%nat).
  { apply nth_error_Some. rewrite Hj. discriminate. }
  rewrite length_seq in Hlt.
  apply (nth_error_nth _ _ 0%nat) in Hj. rewrite seq_nth in Hj by exact Hlt.
  simpl in Hj. now subst j.
Qed.

Lemma range_split (lo hi k : Z) (pre post : list Z) :
  range lo hi = pre ++ k :: post ->
  (forall x, lo <= x < k -> In x pre) /\ (forall x, k < x < hi -> In x post).
Proof.
  intros Hr.
  assert (Hk : k = lo + Z.of_nat (List.length pre)).
  { apply (range_nth lo hi). rewrite Hr, nth_error_app2 by lia.
    now rewrite Nat.sub_diag. }
  assert (Hpre : forall x, In x pre -> x < k).
  { intros x Hin. apply In_nth_error in Hin. destruct Hin as [j Hj].
    assert (Hlt : (j < List.length pre)%nat)
      by (apply nth_error_Some; rewrite Hj; discriminate).
    assert (Hx : x = lo + Z.of_nat j).
    { apply (range_nth lo hi). rewrite Hr, nth_error_app1 by exact Hlt. exact Hj. }
    lia. }
  assert (Hpost : forall x, In x post -> k < x).
  { intros x Hin. apply In_nth_error in Hin. destruct Hin as [j Hj].
    assert (Hx : x = lo + Z.of_nat (List.length pre + S j)).
    { apply (range_nth lo hi). rewrite Hr, nth_error_app2 by lia.
      replace (List.length pre + S j - List.length pre)%nat with (S j) by lia.
      exact Hj. }
    lia. }
  assert (Hkr : lo <= k < hi).
  { apply in_range. rewrite Hr. apply in_elt. }
  split; intros x Hx.
  - assert (Hin : In x (range lo hi)) by (apply in_range; lia).
    rewrite Hr in Hin. apply in_app_or in Hin.
    destruct Hin as [Hin|[Heq|Hin]]; [exact Hin | lia | apply Hpost in Hin; lia].
  - assert (Hin : In x (range lo hi)) by (apply in_range; lia).
    rewrite Hr in Hin. apply in_app_or in Hin.
    destruct Hin as [Hin|[Heq|Hin]]; [apply Hpre in Hin; lia | lia | exact Hin].
Qed.

(** ** More on the recognizer *)

Section RecognizerMore.

Context {lib : HMMLib}.

Lemma gtb_above_all (x y z : float) :
  gtb x y = true -> gtb z y = false -> is_nan z = false -> gtb x z = true.
Proof. unfold gtb. apply ltb_above_all. Qed.

(** Entry [i] of both lists returned by [recognize] belongs to test item [i]. *)
Lemma recognize_nth (models : dict GaussianHMM) (test_set : SinglesData)
    (probabilities : list (dict float)) (guesses : list (option string))
    (i : nat) (x : Xlengths) :
  recognize models test_set = Returned (probabilities, guesses) ->
  nth_error test_set i = Some x ->
  nth_error probabilities i = Some (word_prob (recognize_item models x)) /\
  nth_error guesses i = Some (best_guess (recognize_item models x)).
Proof.
  rewrite recognize_eq. intros H Hx. injection H as <- <-.
  rewrite !nth_error_map, Hx. split; reflexivity.
Qed.

Lemma try_score_above_ninf (m : GaussianHMM) (x : Xlengths) :
  gtb (try_score m x) ninf = true ->
  exists s, GaussianHMM_score m x = Returned s /\ gtb s ninf = true.
Proof.
  unfold try_score. destruct (GaussianHMM_score m x) as [s|]; intros H.
  - now exists s.
  - discriminate.
Qed.

(** The guess of an item, located in the dict of models. *)
Lemma recognize_item_first (models : dict GaussianHMM) (x : Xlengths) (w : string) :
  best_guess (recognize_item models x) = Some w ->
  exists pre m post,
    models = pre ++ (w, m) :: post /\
    gtb (try_score m x) ninf = true /\
    (forall w' m', In (w', m') pre -> is_nan (try_score m' x) = false ->
                   gtb (try_score m x) (try_score m' x) = true) /\
    (forall w' m', In (w', m') post ->
                   gtb (try_score m' x) (try_score m x) = false).
Proof.
  intros Hg.
  pose proof (recognize_item_best x models item_init) as Hb.
  fold (recognize_item models x) in Hb. simpl in Hb.
  destruct (search_first gtb (fun ws : string * float => Returned (snd ws, fst ws))
              gtb_trans gtb_above_all (scored models x) ninf None)
    as [[Hs _]|(pre' & [w0 s0] & post' & v & m0 & Hc & He & Hs & Hgt & Hpre & Hpost)].
  - rewrite Hs in Hb. injection Hb as _ Hn. congruence.
  - simpl in He. injection He as <- <-.
    rewrite Hs in Hb. injection Hb as _ Hw. rewrite Hg in Hw. injection Hw as ->.
    unfold scored in Hc. apply map_eq_app in Hc.
    destruct Hc as (pre & rest & -> & Hmp & Hrest).
    apply map_eq_cons in Hrest. destruct Hrest as ([w1 m] & post & -> & Hwm & Hmpost).
    simpl in Hwm. injection Hwm as -> <-.
    exists pre, m, post. split; [reflexivity|]. split; [exact Hgt|]. split.
    + intros w' m' Hin Hnan.
      apply (Hpre (w', try_score m' x) (try_score m' x) w'); [|reflexivity|exact Hnan].
      rewrite <- Hmp. apply (in_map (fun wm => (fst wm, try_score (snd wm) x)) pre (w', m')).
      exact Hin.
    + intros w' m' Hin.
      apply (Hpost (w', try_score m' x) (try_score m' x) w'); [|reflexivity].
      rewrite <- Hmpost.
      apply (in_map (fun wm => (fst wm, try_score (snd wm) x)) post (w', m')).
      exact Hin.
Qed.

(** X1: the guess of a test item is a word of the models dict whose
    score is strictly above the score of every earlier word (NaN scores
    set aside) and not exceeded by the score of any later word: of
    several words with the top score, the first in dict order is
    guessed. *)
Theorem recognize_guess_first_of_equals
    (models : dict GaussianHMM) (test_set : SinglesData)
    (probabilities : list (dict float)) (guesses : list (option string))
    (i : nat) (x : Xlengths) (w : string) :
  recognize models test_set = Returned (probabilities, guesses) ->
  nth_error test_set i = Some x ->
  nth_error guesses i = Some (Some w) ->
  exists pre m post,
    models = pre ++ (w, m) :: post /\
    (forall w' m', In (w', m') pre -> is_nan (try_score m' x) = false ->
                   gtb (try_score m x) (try_score m' x) = true) /\
    (forall w' m', In (w', m') post ->
                   gtb (try_score m' x) (try_score m x) = false).
Proof.
  intros Hr Hx Hg.
  destruct (recognize_nth _ _ _ _ _ _ Hr Hx) as [_ Hg'].
  rewrite Hg in Hg'. injection Hg' as Hg'. symmetry in Hg'.
  destruct (recognize_item_first models x w Hg') as (pre & m & post & Hm & _ & Hpre & Hpost).
  exists pre, m, post. split; [exact Hm|]. split; [exact Hpre | exact Hpost].
Qed.

(** X2: the guess of a test item is absent exactly when no model scores
    the item above [-inf]; and a guessed word is never one whose model
    raised, nor one scored NaN or [-inf]: its scoring call returned a
    score above [-inf]. *)
Theorem recognize_guess_absent_iff
    (models : dict GaussianHMM) (test_set : SinglesData)
    (probabilities : list (dict float)) (guesses : list (option string))
    (i : nat) (x : Xlengths) (g : option string) :
  recognize models test_set = Returned (probabilities, guesses) ->
  nth_error test_set i = Some x ->
  nth_error guesses i = Some g ->
  (g = None <->
   forall w m, In (w, m) models -> gtb (try_score m x) ninf = false) /\
  (forall w, g = Some w ->
     exists m s, In (w, m) models /\
                 GaussianHMM_score m x = Returned s /\ gtb s ninf = true).
Proof.
  intros Hr Hx Hg.
  destruct (recognize_nth _ _ _ _ _ _ Hr Hx) as [_ Hg'].
  rewrite Hg in Hg'. injection Hg' as ->.
  split.
  - destruct (recognize_item_guess models x)
      as [(Hn & _ & Hall)|(w & s & Hin & Hs & _ & Hgt & _)].
    + split; [|intros _; exact Hn].
      intros _ w m Hin. apply (Hall w). apply scored_in. now exists m.
    + split; [rewrite Hs; discriminate|].
      intros Hall. apply scored_in in Hin. destruct Hin as (m & Hin & ->).
      rewrite (Hall w m Hin) in Hgt. discriminate.
  - intros w Hw.
    destruct (recognize_item_first models x w Hw) as (pre & m & post & -> & Hgt & _).
    destruct (try_score_above_ninf m x Hgt) as (s & Hs & Hgts).
    exists m, s. split; [apply in_elt|]. split; [exact Hs | exact Hgts].
Qed.

Lemma search_app {C M : Type} (better : float -> float -> bool)
    (eval : C -> outcome (float * M)) (l1 l2 : list C) (st : float * option M) :
  search better eval (l1 ++ l2) st = search better eval l2 (search better eval l1 st).
Proof. unfold search. apply fold_left_app. Qed.

(** A model that raises on an item leaves the guess of the item as it
    is without that model. *)
Lemma recognize_item_drop_failing (pre post : dict GaussianHMM)
    (w : string) (m : GaussianHMM) (x : Xlengths) :
  GaussianHMM_score m x = Raised ->
  best_guess (recognize_item (pre ++ (w, m) :: post) x)
  = best_guess (recognize_item (pre ++ post) x).
Proof.
  intros Hraise.
  pose proof (recognize_item_best x (pre ++ (w, m) :: post) item_init) as H1.
  pose proof (recognize_item_best x (pre ++ post) item_init) as H2.
  fold (recognize_item (pre ++ (w, m) :: post) x) in H1.
  fold (recognize_item (pre ++ post) x) in H2. simpl in H1, H2.
  apply (f_equal snd) in H1. apply (f_equal snd) in H2. simpl in H1, H2.
  rewrite H1, H2. f_equal.
  unfold scored. rewrite !map_app, !search_app.
  destruct (search gtb (fun ws : string * float => Returned (snd ws, fst ws))
              (map (fun wm => (fst wm, try_score (snd wm) x)) pre) (ninf, None))
    as [best kept].
  unfold search. cbn [map fold_left]. f_equal.
  unfold search_step. cbn [fst snd].
  unfold try_score. rewrite Hraise. unfold gtb. now rewrite ltb_ninf_r.
Qed.

(** X3: a model that raises on every test item has no influence on the
    guesses: with it or without it in the models dict, [recognize]
    returns the same guess list. *)
Theorem recognize_failing_model_no_influence
    (pre post : dict GaussianHMM) (w : string) (m : GaussianHMM)
    (test_set : SinglesData) :
  (forall x, In x test_set -> GaussianHMM_score m x = Raised) ->
  exists probabilities1 probabilities2 guesses,
    recognize (pre ++ (w, m) :: post) test_set = Returned (probabilities1, guesses) /\
    recognize (pre ++ post) test_set = Returned (probabilities2, guesses).
Proof.
  intros Hraise. rewrite !recognize_eq.
  eexists. eexists. eexists. split; [reflexivity|]. f_equal. f_equal.
  apply map_ext_in. intros x Hin. symmetry.
  apply recognize_item_drop_failing. now apply Hraise.
Qed.

(** X4: the rows and guesses of a test item do not depend on the other
    items: recognizing two test sets one after the other gives the
    results of each, one after the other. *)
Theorem recognize_app (models : dict GaussianHMM) (test_set1 test_set2 : SinglesData)
    (probabilities1 probabilities2 : list (dict float))
    (guesses1 guesses2 : list (option string)) :
  recognize models test_set1 = Returned (probabilities1, guesses1) ->
  recognize models test_set2 = Returned (probabilities2, guesses2) ->
  recognize models (test_set1 ++ test_set2)
  = Returned (probabilities1 ++ probabilities2, guesses1 ++ guesses2).
Proof.
  rewrite !recognize_eq. intros H1 H2.
  injection H1 as <- <-. injection H2 as <- <-.
  now rewrite !map_app.
Qed.

End RecognizerMore.

(** ** More on the selectors *)

Section SelectorMore.

Context {lib : HMMLib}.

Lemma search_all_raised {C M : Type} (better : float -> float -> bool)
    (eval : C -> outcome (float * M)) (cands : list C) (st : float * option M) :
  (forall c, In c cands -> eval c = Raised) ->
  search better eval cands st = st.
Proof.
  intros Hall. unfold search.
  apply (fold_left_invariant (fun s => s = st)); [reflexivity|].
  intros s c Hin ->. unfold search_step. destruct st. now rewrite (Hall c Hin).
Qed.

Lemma bic_candidate_fit (self : ModelSelector) (k : Z) (v : float) (m : GaussianHMM) :
  bic_candidate self k = Returned (v, m) ->
  GaussianHMM_fit k (random_state self) (X self, lengths self) = Returned m /\
  exists logL, GaussianHMM_score m (X self, lengths self) = Returned logL.
Proof.
  unfold bic_candidate, base_model.
  destruct (GaussianHMM_fit k (random_state self) (X self, lengths self)) as [m0|];
    [|discriminate].
  destruct (GaussianHMM_score m0 (X self, lengths self)) as [logL|] eqn:Hs;
    [|discriminate].
  intros H. injection H as _ <-. split; [reflexivity | now exists logL].
Qed.

(** X5: a model returned by [SelectorBIC.select] is the fit on the
    word's full data of a state count of the search range, it scored on
    that data, and its BIC is below [+inf], strictly below the BIC of
    every lower state count (NaN set aside) and not above the BIC of any
    higher one: of several candidates with the lowest BIC, the lowest
    state count is returned. *)
Theorem SelectorBIC_select_lowest_of_equals (self : ModelSelector) (m : GaussianHMM) :
  SelectorBIC_select self = Some m ->
  exists k v,
    min_n_components self <= k <= max_n_components self /\
    bic_candidate self k = Returned (v, m) /\
    GaussianHMM_fit k (random_state self) (X self, lengths self) = Returned m /\
    (exists logL, GaussianHMM_score m (X self, lengths self) = Returned logL) /\
    ltb v inf = true /\
    (forall k' v' m', min_n_components self <= k' < k ->
                      bic_candidate self k' = Returned (v', m') ->
                      is_nan v' = false -> ltb v v' = true) /\
    (forall k' v' m', k < k' <= max_n_components self ->
                      bic_candidate self k' = Returned (v', m') ->
                      ltb v' v = false).
Proof.
  rewrite SelectorBIC_search. intros Hsel.
  destruct (search_first ltb (bic_candidate self) ltb_trans ltb_below_all
              (candidates self) inf None)
    as [[Hs _]|(pre & k & post & v & m0 & Hc & He & Hs & Hlt & Hpre & Hpost)];
    rewrite Hs in Hsel; [discriminate|].
  simpl in Hsel. injection Hsel as ->.
  destruct (bic_candidate_fit self k v m He) as [Hfit Hscore].
  destruct (range_split _ _ _ _ _ Hc) as [Hlow Hhigh].
  exists k, v. split; [apply in_candidates; rewrite Hc; apply in_elt|].
  split; [exact He|]. split; [exact Hfit|]. split; [exact Hscore|].
  split; [exact Hlt|]. split.
  - intros k' v' m' Hk'. apply Hpre. now apply Hlow.
  - intros k' v' m' Hk'. apply Hpost. apply Hhigh. lia.
Qed.

Lemma dic_candidate_fit (self : ModelSelector) (k : Z) (v : float) (m : GaussianHMM) :
  dic_candidate self k = Returned (v, m) ->
  GaussianHMM_fit k (random_state self) (X self, lengths self) = Returned m /\
  exists logL, GaussianHMM_score m (X self, lengths self) = Returned logL.
Proof.
  unfold dic_candidate, base_model.
  destruct (GaussianHMM_fit k (random_state self) (X self, lengths self)) as [m0|];
    [|discriminate].
  destruct (GaussianHMM_score m0 (X self, lengths self)) as [logL|] eqn:Hs;
    [|discriminate].
  destruct (sum_other self m0 (aginst_words self) (S754_zero false)) as [sum|];
    [|discriminate].
  destruct (truediv sum (Z.of_nat (List.length (words self)) - 1)); [|discriminate].
  intros H. injection H as _ <-. split; [reflexivity | now exists logL].
Qed.

(** X6: a model returned by [SelectorDIC.select] is the fit on the
    word's full data of a state count of the search range, it scored on
    that data, and its DIC is above [-inf], strictly above the DIC of
    every lower state count (NaN set aside) and not below the DIC of any
    higher one: of several candidates with the highest DIC, the lowest
    state count is returned. *)
Theorem SelectorDIC_select_lowest_of_equals (self : ModelSelector) (m : GaussianHMM) :
  SelectorDIC_select self = Some m ->
  exists k v,
    min_n_components self <= k <= max_n_components self /\
    dic_candidate self k = Returned (v, m) /\
    GaussianHMM_fit k (random_state self) (X self, lengths self) = Returned m /\
    (exists logL, GaussianHMM_score m (X self, lengths self) = Returned logL) /\
    gtb v ninf = true /\
    (forall k' v' m', min_n_components self <= k' < k ->
                      dic_candidate self k' = Returned (v', m') ->
                      is_nan v' = false -> gtb v v' = true) /\
    (forall k' v' m', k < k' <= max_n_components self ->
                      dic_candidate self k' = Returned (v', m') ->
                      gtb v' v = false).
Proof.
  rewrite SelectorDIC_search. intros Hsel.
  destruct (search_first gtb (dic_candidate self) gtb_trans gtb_above_all
              (candidates self) ninf None)
    as [[Hs _]|(pre & k & post & v & m0 & Hc & He & Hs & Hgt & Hpre & Hpost)];
    rewrite Hs in Hsel; [discriminate|].
  simpl in Hsel. injection Hsel as ->.
  destruct (dic_candidate_fit self k v m He) as [Hfit Hscore].
  destruct (range_split _ _ _ _ _ Hc) as [Hlow Hhigh].
  exists k, v. split; [apply in_candidates; rewrite Hc; apply in_elt|].
  split; [exact He|]. split; [exact Hfit|]. split; [exact Hscore|].
  split; [exact Hgt|]. split.
  - intros k' v' m' Hk'. apply Hpre. now apply Hlow.
  - intros k' v' m' Hk'. apply Hpost. apply Hhigh. lia.
Qed.

(** X7: for a vocabulary of one word, the selector that [__init__]
    builds makes [SelectorDIC.select] return [None]: there is no other
    word, the division by [len(self.words) - 1 = 0] raises for every
    candidate that got that far, and the [except] skips it. *)
Theorem SelectorDIC_single_word_None
    (all_word_sequences : dict (list sequence)) (all_word_Xlengths : dict Xlengths)
    (word : string) (n lo hi seed : Z) (vb : bool) (self : ModelSelector) :
  init all_word_sequences all_word_Xlengths word n lo hi seed vb = Returned self ->
  List.length all_word_sequences = 1%nat ->
  aginst_words self = [] /\ SelectorDIC_select self = None.
Proof.
  unfold init. intros Hinit Hlen.
  destruct (dict_get all_word_sequences word) as [seqs|] eqn:Hget; [|discriminate].
  destruct (dict_get all_word_Xlengths word) as [[x l]|]; [|discriminate].
  injection Hinit as <-. split.
  - unfold aginst_words. simpl.
    destruct all_word_sequences as [|[w0 s0] [|? ?]]; try discriminate.
    simpl in Hget |- *. destruct (String.eqb_spec w0 word) as [->|Hne]; [|discriminate].
    reflexivity.
  - rewrite SelectorDIC_search. rewrite search_all_raised; [reflexivity|].
    intros k _. unfold dic_candidate. cbn [words]. rewrite Hlen.
    destruct (base_model _ k) as [m|]; [|reflexivity].
    destruct (GaussianHMM_score m _); [|reflexivity].
    destruct (sum_other _ m _ _); reflexivity.
Qed.

Lemma sum_other_missing (self : ModelSelector) (model : GaussianHMM)
    (ws : list string) :
  forall (acc : float) (w : string),
    In w ws -> dict_get (hwords self) w = None ->
    sum_other self model ws acc = Raised.
Proof.
  induction ws as [|w0 ws IH]; intros acc w Hin Hget; [destruct Hin|].
  simpl. destruct (dict_get (hwords self) w0) as [other0|] eqn:Hget0; [|reflexivity].
  destruct (GaussianHMM_score model other0) as [v|]; [|reflexivity].
  destruct Hin as [->|Hin]; [congruence|]. eapply IH; eauto.
Qed.

(** X8: when some other word of the vocabulary has no entry in the
    [hwords] lookup, [SelectorDIC.select] returns [None]: the subscript
    raises [KeyError] inside the [try] for every candidate that fits and
    scores on its own data. *)
Theorem SelectorDIC_missing_other_word_None (self : ModelSelector) (w : string) :
  In w (dict_keys (words self)) ->
  w <> this_word self ->
  dict_get (hwords self) w = None ->
  SelectorDIC_select self = None.
Proof.
  intros Hin Hne Hget.
  rewrite SelectorDIC_search. rewrite search_all_raised; [reflexivity|].
  intros k _. unfold dic_candidate.
  destruct (base_model self k) as [m|]; [|reflexivity].
  destruct (GaussianHMM_score m (X self, lengths self)); [|reflexivity].
  rewrite (sum_other_missing self m _ _ w); [reflexivity | | exact Hget].
  apply in_aginst_words. now split.
Qed.

(** *** Cross-validation as a search *)

(** The local variable [model] carried into a candidate plays no part in
    the outcome of its fold loop. *)
Lemma cv_folds_fst_indep (self : ModelSelector) (k : Z)
    (folds : list (list nat * list nat)) :
  forall score n model model',
    fst (cv_folds self k folds score n model)
    = fst (cv_folds self k folds score n model').
Proof.
  induction folds as [|[tr te] folds IH]; intros score n model model'; [reflexivity|].
  simpl.
  destruct (GaussianHMM_fit k (random_state self) (combine_sequences tr (sequences self)))
    as [m|]; [|reflexivity].
  destruct (GaussianHMM_score m (combine_sequences te (sequences self)));
    [apply IH | reflexivity].
Qed.

Lemma cv_candidate_mean (self : ModelSelector) (k : Z) (model : option GaussianHMM) :
  (1 < List.length (sequences self))%nat ->
  fst (cv_candidate self k model)
  = match cv_mean self k with
    | Raised => Raised
    | Returned mean => Returned (mean, None)
    end.
Proof.
  intros Hlen. rewrite (cv_candidate_multi self k model Hlen). unfold cv_mean.
  rewrite (cv_folds_fst_indep self k (cv_splits self) (of_int 0) 0 None model).
  destruct (cv_folds self k (cv_splits self) (of_int 0) 0 model) as [[[sc n]|] mv];
    [|reflexivity].
  simpl. destruct (truediv sc n); reflexivity.
Qed.

(** One iteration of the search, on the best score and best model. *)
Lemma cv_step_best (self : ModelSelector) (st : cv_state) (k : Z) :
  (1 < List.length (sequences self))%nat ->
  (cv_best_score (cv_step self st k), cv_best_model (cv_step self st k))
  = match cv_mean self k with
    | Raised => (cv_best_score st, cv_best_model st)
    | Returned mean =>
        if ltb (cv_best_score st) mean then
          (mean,
           match GaussianHMM_fit k (random_state self) (X self, lengths self) with
           | Returned lm => Some lm
           | Raised => cv_best_model st
           end)
        else (cv_best_score st, cv_best_model st)
    end.
Proof.
  intros Hlen. pose proof (cv_candidate_mean self k (cv_model st) Hlen) as Hc.
  unfold cv_step.
  destruct (cv_candidate self k (cv_model st)) as [[[score last]|] mv]; simpl in Hc;
    destruct (cv_mean self k) as [mean|]; try discriminate; [|reflexivity].
  injection Hc as -> ->.
  destruct (ltb (cv_best_score st) mean); [|reflexivity].
  destruct (GaussianHMM_fit k (random_state self) (X self, lengths self)); reflexivity.
Qed.

Lemma cv_mean_folds_ok (self : ModelSelector) (k : Z) (v : float) :
  cv_mean self k = Returned v ->
  forall fold, In fold (cv_splits self) -> fold_fails self k fold = false.
Proof.
  unfold cv_mean. intros Hm fold Hin.
  destruct (fold_fails self k fold) eqn:Hf; [|reflexivity].
  rewrite (cv_folds_raises self k (cv_splits self) (of_int 0) 0 None) in Hm;
    [discriminate | now exists fold].
Qed.

(** X9: with several examples, a model returned by [SelectorCV.select]
    comes from a state count of the search range all of whose folds fit
    and scored, with an average held-out log-likelihood above [-inf],
    and it is the fit of that state count on the word's full data. *)
Theorem SelectorCV_returned_candidate_scored (self : ModelSelector) (m : GaussianHMM) :
  (1 < List.length (sequences self))%nat ->
  SelectorCV_select self = Some m ->
  exists k v,
    min_n_components self <= k <= max_n_components self /\
    cv_mean self k = Returned v /\
    gtb v ninf = true /\
    (forall fold, In fold (cv_splits self) -> fold_fails self k fold = false) /\
    GaussianHMM_fit k (random_state self) (X self, lengths self) = Returned m.
Proof.
  intros Hlen. unfold SelectorCV_select.
  pose (P := fun st : cv_state =>
               forall m, cv_best_model st = Some m ->
                 exists k v,
                   min_n_components self <= k <= max_n_components self /\
                   cv_mean self k = Returned v /\ gtb v ninf = true /\
                   (forall fold, In fold (cv_splits self) ->
                                 fold_fails self k fold = false) /\
                   GaussianHMM_fit k (random_state self) (X self, lengths self)
                   = Returned m).
  assert (HP : P (fold_left (cv_step self) (candidates self) cv_init)).
  { apply fold_left_invariant.
    - intros m0 H0. discriminate.
    - intros st k Hk Hst m0 Hm0.
      pose proof (cv_step_best self st k Hlen) as Hb.
      destruct (cv_mean self k) as [mean|] eqn:Hmean.
      + destruct (ltb (cv_best_score st) mean) eqn:Hlt.
        * destruct (GaussianHMM_fit k (random_state self) (X self, lengths self))
            as [lm|] eqn:Hfit; injection Hb as _ Hbm; rewrite Hbm in Hm0.
          -- injection Hm0 as <-. exists k, mean.
             split; [now apply in_candidates|]. split; [exact Hmean|].
             split; [|split; [eapply cv_mean_folds_ok; eauto | exact Hfit]].
             destruct (ltb_not_nan _ _ Hlt) as [_ Hnan].
             destruct (ninf_or_above mean Hnan) as [->|Hgt]; [|exact Hgt].
             rewrite ltb_ninf_r in Hlt. discriminate.
          -- now apply Hst.
        * injection Hb as _ Hbm. rewrite Hbm in Hm0. now apply Hst.
      + injection Hb as _ Hbm. rewrite Hbm in Hm0. now apply Hst. }
  apply HP.
Qed.

Lemma cv_fold_search (self : ModelSelector) (l : list Z) :
  (1 < List.length (sequences self))%nat ->
  (forall k, In k l ->
     GaussianHMM_fit k (random_state self) (X self, lengths self) <> Raised) ->
  forall st,
    (cv_best_score (fold_left (cv_step self) l st),
     cv_best_model (fold_left (cv_step self) l st))
    = search gtb (cv_refit self) l (cv_best_score st, cv_best_model st).
Proof.
  intros Hlen. induction l as [|k l IH]; intros Hfit st; [reflexivity|].
  cbn [fold_left]. rewrite IH by (intros k' Hk'; apply Hfit; now right).
  unfold search. cbn [fold_left]. f_equal.
  rewrite (cv_step_best self st k Hlen). unfold search_step, cv_refit.
  destruct (cv_mean self k) as [mean|]; [|reflexivity].
  destruct (GaussianHMM_fit k (random_state self) (X self, lengths self)) as [lm|] eqn:Hk.
  - reflexivity.
  - exfalso. apply (Hfit k); [now left | exact Hk].
Qed.

(** X10: with several examples, and when the full-data fit raises for
    no state count of the range, [SelectorCV.select] is a search for
    the highest average held-out log-likelihood: it returns [None]
    exactly when no candidate's average is above [-inf], and a model it
    returns belongs to a state count whose average is strictly above
    that of every lower state count (NaN set aside) and not below that
    of any higher one. *)
Theorem SelectorCV_select_maximum (self : ModelSelector) :
  (1 < List.length (sequences self))%nat ->
  (forall k, min_n_components self <= k <= max_n_components self ->
     GaussianHMM_fit k (random_state self) (X self, lengths self) <> Raised) ->
  (SelectorCV_select self = None <->
   forall k v, min_n_components self <= k <= max_n_components self ->
               cv_mean self k = Returned v -> gtb v ninf = false) /\
  (forall m, SelectorCV_select self = Some m ->
     exists k v,
       min_n_components self <= k <= max_n_components self /\
       cv_mean self k = Returned v /\
       GaussianHMM_fit k (random_state self) (X self, lengths self) = Returned m /\
       (forall k' v', min_n_components self <= k' < k ->
                      cv_mean self k' = Returned v' ->
                      is_nan v' = false -> gtb v v' = true) /\
       (forall k' v', k < k' <= max_n_components self ->
                      cv_mean self k' = Returned v' -> gtb v' v = false)).
Proof.
  intros Hlen Hfit.
  assert (Hrefit : forall k v, min_n_components self <= k <= max_n_components self ->
             cv_mean self k = Returned v ->
             exists m, cv_refit self k = Returned (v, m)).
  { intros k v Hk Hm. unfold cv_refit. rewrite Hm.
    destruct (GaussianHMM_fit k (random_state self) (X self, lengths self)) as [m|] eqn:E.
    - now exists m.
    - exfalso. now apply (Hfit k Hk). }
  assert (Hmean : forall k v m, cv_refit self k = Returned (v, m) ->
             cv_mean self k = Returned v /\
             GaussianHMM_fit k (random_state self) (X self, lengths self) = Returned m).
  { intros k v m. unfold cv_refit.
    destruct (cv_mean self k) as [mean|]; [|discriminate].
    destruct (GaussianHMM_fit k (random_state self) (X self, lengths self)) as [lm|];
      [|discriminate].
    intros H. injection H as <- <-. split; reflexivity. }
  assert (Hsel : SelectorCV_select self
                 = snd (search gtb (cv_refit self) (candidates self) (ninf, None))).
  { unfold SelectorCV_select.
    pose proof (cv_fold_search self (candidates self) Hlen
                  (fun k Hk => Hfit k (proj1 (in_candidates self k) Hk)) cv_init) as H.
    simpl in H. rewrite <- H. reflexivity. }
  rewrite Hsel.
  destruct (search_first gtb (cv_refit self) gtb_trans gtb_above_all
              (candidates self) ninf None)
    as [[Hs Hall]|(pre & k & post & v & m0 & Hc & He & Hs & Hgt & Hpre & Hpost)];
    rewrite Hs; simpl.
  - split; [|intros m H; discriminate].
    split; [|reflexivity]. intros _ k v Hk Hm.
    destruct (Hrefit k v Hk Hm) as [m Hr].
    apply (Hall k v m); [now apply in_candidates | exact Hr].
  - destruct (range_split _ _ _ _ _ Hc) as [Hlow Hhigh].
    assert (Hk : min_n_components self <= k <= max_n_components self).
    { apply in_candidates. rewrite Hc. apply in_elt. }
    destruct (Hmean k v m0 He) as [Hmk Hfk].
    split.
    + split; [discriminate|]. intros Hnone.
      rewrite (Hnone k v Hk Hmk) in Hgt. discriminate.
    + intros m Hm. injection Hm as <-. exists k, v.
      split; [exact Hk|]. split; [exact Hmk|]. split; [exact Hfk|]. split.
      * intros k' v' Hk' Hm' Hnan.
        destruct (Hrefit k' v' ltac:(lia) Hm') as [m' Hr'].
        apply (Hpre k' v' m'); [now apply Hlow | exact Hr' | exact Hnan].
      * intros k' v' Hk' Hm'.
        destruct (Hrefit k' v' ltac:(lia) Hm') as [m' Hr'].
        apply (Hpost k' v' m'); [apply Hhigh; lia | exact Hr'].
Qed.

End SelectorMore.

(** ** More worked examples *)

Lemma recognize_guess_first_of_equals_witness :
  exists pre m post,
    Toy.mixed_models = pre ++ ("B"%string, m) :: post /\
    (forall w' m', In (w', m') pre ->
       is_nan (try_score (lib := Toy.recognizer_lib) m' Toy.test_item) = false ->
       gtb (try_score (lib := Toy.recognizer_lib) m Toy.test_item)
           (try_score (lib := Toy.recognizer_lib) m' Toy.test_item) = true) /\
    (forall w' m', In (w', m') post ->
       gtb (try_score (lib := Toy.recognizer_lib) m' Toy.test_item)
           (try_score (lib := Toy.recognizer_lib) m Toy.test_item) = false).
Proof.
  apply (recognize_guess_first_of_equals (lib := Toy.recognizer_lib)
           Toy.mixed_models [Toy.test_item]
           [[("A"%string, nan); ("B"%string, of_int 2); ("C"%string, ninf)]]
           [Some "B"%string] 0 Toy.test_item "B"%string).
  - vm_compute. reflexivity.
  - reflexivity.
  - reflexivity.
Defined.

Lemma recognize_guess_absent_iff_witness :
  exists m s, In ("B"%string, m) Toy.mixed_models /\
              GaussianHMM_score (HMMLib := Toy.recognizer_lib) m Toy.test_item
              = Returned s /\
              gtb s ninf = true.
Proof.
  apply (proj2 (recognize_guess_absent_iff (lib := Toy.recognizer_lib)
                  Toy.mixed_models [Toy.test_item]
                  [[("A"%string, nan); ("B"%string, of_int 2); ("C"%string, ninf)]]
                  [Some "B"%string] 0 Toy.test_item (Some "B"%string)
                  ltac:(vm_compute; reflexivity) eq_refl eq_refl) "B"%string eq_refl).
Defined.

Lemma recognize_failing_model_no_influence_witness :
  exists probabilities1 probabilities2 guesses,
    recognize (lib := Toy.recognizer_lib)
      ([("A"%string, Toy.trained 1); ("B"%string, Toy.trained 2)]
       ++ ("C"%string, Toy.trained 0) :: [])
      [Toy.test_item]
    = Returned (probabilities1, guesses) /\
    recognize (lib := Toy.recognizer_lib)
      ([("A"%string, Toy.trained 1); ("B"%string, Toy.trained 2)] ++ [])
      [Toy.test_item]
    = Returned (probabilities2, guesses).
Proof.
  apply (recognize_failing_model_no_influence (lib := Toy.recognizer_lib)).
  intros x _. reflexivity.
Defined.

Lemma recognize_app_witness :
  recognize (lib := Toy.recognizer_lib) Toy.mixed_models
    ([Toy.test_item] ++ [Toy.test_item])
  = Returned
      ([[("A"%string, nan); ("B"%string, of_int 2); ("C"%string, ninf)]]
       ++ [[("A"%string, nan); ("B"%string, of_int 2); ("C"%string, ninf)]],
       [Some "B"%string] ++ [Some "B"%string]).
Proof.
  apply (recognize_app (lib := Toy.recognizer_lib)); vm_compute; reflexivity.
Defined.

Lemma SelectorBIC_select_lowest_of_equals_witness :
  exists k v,
    min_n_components Toy.plain_book <= k <= max_n_components Toy.plain_book /\
    bic_candidate Toy.plain_book k = Returned (v, Toy.full 3).
Proof.
  destruct (SelectorBIC_select_lowest_of_equals Toy.plain_book (Toy.full 3)
              ltac:(vm_compute; reflexivity))
    as (k & v & Hk & He & _).
  exists k, v. split; [exact Hk | exact He].
Defined.

Lemma SelectorDIC_select_lowest_of_equals_witness :
  exists k v,
    min_n_components Toy.plain_book <= k <= max_n_components Toy.plain_book /\
    dic_candidate Toy.plain_book k = Returned (v, Toy.full 2).
Proof.
  destruct (SelectorDIC_select_lowest_of_equals Toy.plain_book (Toy.full 2)
              ltac:(vm_compute; reflexivity))
    as (k & v & Hk & He & _).
  exists k, v. split; [exact Hk | exact He].
Defined.

Lemma SelectorDIC_single_word_None_witness :
  aginst_words Toy.solo_book = [] /\ SelectorDIC_select Toy.solo_book = None.
Proof.
  apply (SelectorDIC_single_word_None (lib := Toy.plain_lib)
           Toy.solo_sequences Toy.solo_Xlengths "BOOK" 3 2 4 14 false Toy.solo_book).
  - reflexivity.
  - reflexivity.
Defined.

Lemma SelectorDIC_missing_other_word_None_witness :
  SelectorDIC_select Toy.orphan_book = None.
Proof.
  apply (SelectorDIC_missing_other_word_None Toy.orphan_book "VEGETABLE").
  - simpl. auto.
  - discriminate.
  - reflexivity.
Defined.

Lemma SelectorCV_returned_candidate_scored_witness :
  exists k v,
    min_n_components Toy.plain_book <= k <= max_n_components Toy.plain_book /\
    cv_mean Toy.plain_book k = Returned v /\
    gtb v ninf = true.
Proof.
  destruct (SelectorCV_returned_candidate_scored Toy.plain_book (Toy.full 3)
              ltac:(simpl; lia) ltac:(vm_compute; reflexivity))
    as (k & v & Hk & Hm & Hgt & _).
  exists k, v. split; [exact Hk|]. split; [exact Hm | exact Hgt].
Defined.

Lemma SelectorCV_select_maximum_witness :
  SelectorCV_select Toy.plain_book = None <->
  forall k v,
    min_n_components Toy.plain_book <= k <= max_n_components Toy.plain_book ->
    cv_mean Toy.plain_book k = Returned v -> gtb v ninf = false.
Proof.
  apply (proj1 (SelectorCV_select_maximum Toy.plain_book
                  ltac:(simpl; lia)
                  ltac:(intros k _; vm_compute; discriminate))).
Defined.

(** ** Rows of the score table and the built selector *)

Lemma dict_get_missing {V : Type} (d : dict V) (k : string) :
  ~ In k (dict_keys d) -> dict_get d k = None.
Proof.
  induction d as [|[k' v'] d IH]; simpl; intros H; [reflexivity|].
  destruct (String.eqb_spec k' k) as [->|Hne].
  - exfalso. apply H. now left.
  - apply IH. intros Hin. apply H. now right.
Qed.

Section RowsAndInit.

Context {lib : HMMLib}.

(** X11: for a models dict, the row of every test item has the keys
    of the models dict, in the same order; and under each word whose
    model returned a score for the item, the row holds exactly that
    score. *)
Theorem recognize_row_lookup
    (models : dict GaussianHMM) (test_set : SinglesData)
    (probabilities : list (dict float)) (guesses : list (option string))
    (i : nat) (x : Xlengths) (row : dict float) :
  NoDup (dict_keys models) ->
  recognize models test_set = Returned (probabilities, guesses) ->
  nth_error test_set i = Some x ->
  nth_error probabilities i = Some row ->
  dict_keys row = dict_keys models /\
  (forall w m s, In (w, m) models -> GaussianHMM_score m x = Returned s ->
                 dict_get row w = Some s).
Proof.
  intros Hnd Hr Hx Hrow.
  destruct (recognize_nth _ _ _ _ _ _ Hr Hx) as [Hp _].
  rewrite Hrow in Hp. injection Hp as ->.
  rewrite (recognize_item_row models x Hnd). split; [apply scored_keys|].
  intros w m s Hin Hs.
  apply dict_get_in; [now rewrite scored_keys|].
  apply scored_in. exists m. split; [exact Hin|].
  unfold try_score. now rewrite Hs.
Qed.

(** X12: with an empty dict of models, [recognize] still returns one
    row and one guess per test item: every row is empty and every guess
    is absent. *)
Theorem recognize_no_models (test_set : SinglesData) :
  recognize [] test_set
  = Returned (map (fun _ => []) test_set, map (fun _ => None) test_set).
Proof.
  rewrite recognize_eq. reflexivity.
Qed.

(** X13: in a selector built by [__init__] from a vocabulary dict, the
    selector's own data are the entries of the two lookups under the
    target word, the words [SelectorDIC] scores against are all the
    other words of the vocabulary, and their number is the divisor
    [len(self.words) - 1] of its mean. *)
Theorem init_then_aginst_words
    (all_word_sequences : dict (list sequence)) (all_word_Xlengths : dict Xlengths)
    (word : string) (n lo hi seed : Z) (vb : bool) (self : ModelSelector) :
  NoDup (dict_keys all_word_sequences) ->
  init all_word_sequences all_word_Xlengths word n lo hi seed vb = Returned self ->
  dict_get all_word_sequences word = Some (sequences self) /\
  dict_get all_word_Xlengths word = Some (X self, lengths self) /\
  (forall w, In w (aginst_words self) <->
             In w (dict_keys all_word_sequences) /\ w <> word) /\
  Z.of_nat (List.length (aginst_words self))
  = Z.of_nat (List.length all_word_sequences) - 1.
Proof.
  unfold init. intros Hnd Hinit.
  destruct (dict_get all_word_sequences word) as [seqs|] eqn:Hget; [|discriminate].
  destruct (dict_get all_word_Xlengths word) as [[x l]|]; [|discriminate].
  injection Hinit as <-. cbn [sequences X lengths].
  split; [reflexivity|]. split; [reflexivity|]. split.
  - intros w. apply in_aginst_words.
  - apply aginst_words_length; cbn [words this_word]; [exact Hnd|].
    destruct (in_dec string_dec word (dict_keys all_word_sequences)) as [Hin|Hnin];
      [exact Hin|].
    apply dict_get_missing in Hnin. congruence.
Qed.

End RowsAndInit.

Lemma recognize_row_lookup_witness :
  dict_keys [("A"%string, nan); ("B"%string, of_int 2); ("C"%string, ninf)]
  = dict_keys Toy.mixed_models /\
  dict_get [("A"%string, nan); ("B"%string, of_int 2); ("C"%string, ninf)] "B"
  = Some (of_int 2).
Proof.
  destruct (recognize_row_lookup (lib := Toy.recognizer_lib)
              Toy.mixed_models [Toy.test_item]
              [[("A"%string, nan); ("B"%string, of_int 2); ("C"%string, ninf)]]
              [Some "B"%string] 0 Toy.test_item
              [("A"%string, nan); ("B"%string, of_int 2); ("C"%string, ninf)]
              ltac:(distinct_keys) ltac:(vm_compute; reflexivity) eq_refl eq_refl)
    as [Hkeys Hlookup].
  split; [exact Hkeys|].
  apply (Hlookup "B"%string (Toy.trained 2) (of_int 2)); [simpl; auto | reflexivity].
Defined.

Lemma init_then_aginst_words_witness :
  dict_get Toy.all_sequences "BOOK" = Some (sequences Toy.plain_book) /\
  dict_get Toy.all_Xlengths "BOOK" = Some (X Toy.plain_book, lengths Toy.plain_book) /\
  (forall w, In w (aginst_words Toy.plain_book) <->
             In w (dict_keys Toy.all_sequences) /\ w <> "BOOK"%string) /\
  Z.of_nat (List.length (aginst_words Toy.plain_book))
  = Z.of_nat (List.length Toy.all_sequences) - 1.
Proof.
  apply (init_then_aginst_words (lib := Toy.plain_lib)
           Toy.all_sequences Toy.all_Xlengths "BOOK" 3 2 4 14 false Toy.plain_book).
  - distinct_keys.
  - reflexivity.
Defined.
